(** * GoBarber mobile: the profile screen

    A shallow embedding of [src/pages/Profile/index.tsx]: the profile
    submission handler [handleSubmit] with its Yup schema, and the avatar
    handler [handleUpdateAvatar] with its three Android permission helpers.

    The handlers are asynchronous and talk to collaborators (the form
    reference, the API client, the session store, the alert dialog, the
    navigator, the permission provider and the image picker).  They are
    embedded in a small state-and-exception monad over a [World] that holds
    the session user, the form's error map and the trace of calls made to
    the collaborators, in the order in which the handler makes them. *)

From stdpp Require Import base option list strings gmap fin_maps fin_map_dom.

Open Scope string_scope.
Open Scope list_scope.

(** ** JavaScript values *)

Module JS.

(** A string-valued property read from an object: [None] is [undefined]. *)
Definition value := option string.

(** [!!val], and the test of [val ? a : b], on a string or [undefined]:
    only the non-empty string is truthy. *)
Definition truthy (val : value) : bool :=
  match val with
  | Some s => negb (String.eqb s "")
  | None => false
  end.

(** [{ ...base, ...ext }]: the keys of [ext] win. *)
Definition spread (base ext : gmap string string) : gmap string string :=
  ext ∪ base.

End JS.

(** ** The part of Yup the schema uses

    Yup is a library; the schema of [handleSubmit] is built from
    [Yup.string()], [.required], [.email], [.when], [.oneOf], [Yup.ref] and
    [Yup.object().shape], and run by [schema.validate].  The email pattern of
    the library is a parameter of the development. *)

Module Yup.

(** An entry of a [oneOf] list: [Yup.ref(key)] or the literal [null]. *)
Inductive Enum :=
| ref (key : string)
| null.

(** A string schema, as the chain of builder calls that made it. *)
Inductive StringSchema :=
| string_
| required (s : StringSchema) (message : string)
| email (s : StringSchema) (message : string)
| when (s : StringSchema) (key : string) (is_ : JS.value → bool)
       (then_ otherwise : StringSchema)
| oneOf (s : StringSchema) (enums : list Enum) (message : string).

(** [Yup.object().shape({...})]: the fields in the order they are written. *)
Definition ObjectSchema := list (string * StringSchema).

(** One entry of [ValidationError.inner]. *)
Record FieldError := { path : string; message : string }.

Record ValidationError := { inner : list FieldError }.

Record ValidateOptions := { abortEarly : bool }.

(** A test of a resolved schema. *)
Inductive Test :=
| t_required (message : string)
| t_email (message : string).

(** A schema once its conditions are resolved against the object under
    validation: the [oneOf] list with its message, and the tests. *)
Record Resolved := {
  whitelist : list Enum;
  whitelistError : option string;
  tests : list Test
}.

Definition concat (base branch : Resolved) : Resolved :=
  {| whitelist := whitelist base ++ whitelist branch;
     whitelistError :=
       match whitelistError branch with
       | Some m => Some m
       | None => whitelistError base
       end;
     tests := tests base ++ tests branch |}.

(** Resolution picks, for each [when], the branch the sibling's value
    selects, and adds it to the schema the [when] was called on. *)
Fixpoint resolve (parent : gmap string string) (s : StringSchema) : Resolved :=
  match s with
  | string_ => {| whitelist := []; whitelistError := None; tests := [] |}
  | required s m =>
      let r := resolve parent s in
      {| whitelist := whitelist r; whitelistError := whitelistError r;
         tests := tests r ++ [t_required m] |}
  | email s m =>
      let r := resolve parent s in
      {| whitelist := whitelist r; whitelistError := whitelistError r;
         tests := tests r ++ [t_email m] |}
  | when s key is_ then_ otherwise =>
      concat (resolve parent s)
             (if is_ (parent !! key) then resolve parent then_
              else resolve parent otherwise)
  | oneOf s enums m =>
      let r := resolve parent s in
      {| whitelist := whitelist r ++ enums; whitelistError := Some m;
         tests := tests r |}
  end.

Section Validate.

(** Whether a string matches the library's email pattern. *)
Variable rEmail : string → bool.

(** A string is never [null]; a reference stands for the sibling's value. *)
Definition enum_has (parent : gmap string string) (v : string) (e : Enum) : bool :=
  match e with
  | ref key => bool_decide (parent !! key = Some v)
  | null => false
  end.

(** The [oneOf] test: [undefined] passes, any other value has to be in
    the list. *)
Definition whitelist_ok (parent : gmap string string) (r : Resolved)
    (value : JS.value) : bool :=
  match value with
  | None => true
  | Some v => existsb (enum_has parent v) (whitelist r)
  end.

Definition test_ok (t : Test) (value : JS.value) : bool :=
  match t, value with
  | t_required _, Some v => negb (String.eqb v "")
  | t_required _, None => false
  | t_email _, Some v => String.eqb v "" || rEmail v
  | t_email _, None => true
  end.

Definition test_message (t : Test) : string :=
  match t with
  | t_required m => m
  | t_email m => m
  end.

(** Validation of one field: the [oneOf] test runs first and, when it
    fails, is the field's only error; otherwise every failing test
    reports. *)
Definition validate_field (parent : gmap string string)
    (field : string * StringSchema) : list FieldError :=
  let '(key, s) := field in
  let value := parent !! key in
  let r := resolve parent s in
  match whitelistError r with
  | Some m =>
      if whitelist_ok parent r value
      then (λ t, {| path := key; message := test_message t |})
             <$> List.filter (λ t, negb (test_ok t value)) (tests r)
      else [ {| path := key; message := m |} ]
  | None =>
      (λ t, {| path := key; message := test_message t |})
        <$> List.filter (λ t, negb (test_ok t value)) (tests r)
  end.

(** [schema.validate(data, options)]: [inr] is the rejection.  Without
    [abortEarly] the errors of all fields are collected, here in the order
    of the shape; with it the first one is the only one.  The library may
    list the collected errors in another order: the properties below use
    the list through membership, length and paths only. *)
Definition validate (schema : ObjectSchema) (data : gmap string string)
    (options : ValidateOptions) : gmap string string + ValidationError :=
  let errors := schema ≫= validate_field data in
  match errors with
  | [] => inl data
  | e :: _ =>
      inr {| inner := if abortEarly options then [e] else errors |}
  end.

End Validate.

End Yup.

(** ** Collaborators of the screen *)

(** [Platform.OS]. *)
Inductive OS := ios | android | windows | macos | web.

Global Instance OS_eq_dec : EqDecision OS.
Proof. solve_decision. Defined.

(** The three entries of [PermissionsAndroid.PERMISSIONS] the screen names. *)
Inductive Permission :=
| CAMERA
| READ_EXTERNAL_STORAGE
| WRITE_EXTERNAL_STORAGE.

Global Instance Permission_eq_dec : EqDecision Permission.
Proof. solve_decision. Defined.

(** [PermissionsAndroid.RESULTS]. *)
Inductive PermissionStatus := GRANTED | DENIED | NEVER_ASK_AGAIN.

Global Instance PermissionStatus_eq_dec : EqDecision PermissionStatus.
Proof. solve_decision. Defined.

Module ImagePicker.

Record Options := {
  title : string;
  cancelButtonTitle : string;
  takePhotoButtonTitle : string;
  chooseFromLibraryButtonTitle : string;
  allowsEditing : bool;
  quality : nat;
  mediaType : string
}.

Global Instance Options_eq_dec : EqDecision Options.
Proof. solve_decision. Defined.

(** What the picker hands to the callback. *)
Record Response := {
  didCancel : bool;
  error : JS.value;
  type : JS.value;
  uri : JS.value;
  fileName : JS.value
}.

End ImagePicker.

Module FormData.

(** The file descriptor appended under a field name. *)
Record File := { type : JS.value; name : JS.value; uri : JS.value }.

Global Instance File_eq_dec : EqDecision File.
Proof. solve_decision. Defined.

Definition t := list (string * File).

Definition append (data : t) (field : string) (f : File) : t :=
  data ++ [(field, f)].

End FormData.

(** A rejection of the API client, seen through [JSON.stringify]. *)
Record ApiError := { JSON_stringify : string }.

Global Instance ApiError_eq_dec : EqDecision ApiError.
Proof. solve_decision. Defined.

(** The outcome of [api.put] and [api.patch]: [response.data], or the
    rejection. *)
Inductive ApiResult :=
| resolved (data : gmap string string)
| rejected (error : ApiError).

(** What the outside world answers during one run of a handler.  The
    permission provider and the picker always answer: a rejected promise of
    theirs is not modelled. *)
Record Env := {
  Platform_OS : OS;
  api_put : string → gmap string string → ApiResult;
  api_patch : string → FormData.t → ApiResult;
  PermissionsAndroid_check : Permission → bool;
  PermissionsAndroid_request : Permission → PermissionStatus;
  ImagePicker_response : ImagePicker.Response
}.

(** A call made to a collaborator. *)
Inductive Event :=
| EvSetErrors (errors : gmap string string)
| EvApiPut (url : string) (body : gmap string string)
| EvApiPatch (url : string) (body : FormData.t)
| EvUpdateUser (user : gmap string string)
| EvAlert (title : string) (message : JS.value)
| EvGoBack
| EvPermCheck (p : Permission)
| EvPermRequest (p : Permission)
| EvShowImagePicker (options : ImagePicker.Options).

Global Instance Event_eq_dec : EqDecision Event.
Proof. solve_decision. Defined.

(** The state the handlers act on: the user held by the session store, the
    errors shown by the form [formRef.current] ([None] while the reference is
    [null]), and the calls made so far, oldest first. *)
Record World := {
  session_user : gmap string string;
  formRef_current : option (gmap string string);
  trace : list Event
}.

(** ** The monad of the handlers: state, and exceptions of type [E] *)

Definition M (E A : Type) : Type := World → (A + E) * World.

Global Instance M_ret {E} : MRet (M E) := λ A a w, (inl a, w).

Global Instance M_bind {E} : MBind (M E) := λ A B f m w,
  match m w with
  | (inl a, w') => f a w'
  | (inr e, w') => (inr e, w')
  end.

Definition throw {E A} (e : E) : M E A := λ w, (inr e, w).

(** [try { body } catch (err) { handler }]. *)
Definition try_catch {E E' A} (body : M E A) (handler : E → M E' A) : M E' A :=
  λ w,
    match body w with
    | (inl a, w') => (inl a, w')
    | (inr e, w') => handler e w'
    end.

Definition emit {E} (ev : Event) : M E unit :=
  λ w, (inl (),
        {| session_user := session_user w;
           formRef_current := formRef_current w;
           trace := trace w ++ [ev] |}).

(** The final state of a run and the calls it made. *)
Definition run {E A} (m : M E A) (w : World) : World := snd (m w).

(** ** The profile screen *)

Record ProfileFormData := {
  name : string;
  email : string;
  old_password : string;
  password : string;
  password_confirmation : string
}.

(** The form data as the object handed to [schema.validate]. *)
Definition to_object (data : ProfileFormData) : gmap string string :=
  {[ "name" := name data;
     "email" := email data;
     "old_password" := old_password data;
     "password" := password data;
     "password_confirmation" := password_confirmation data ]}.

(** The schema of [handleSubmit], builder call by builder call. *)
Definition name_schema : Yup.StringSchema :=
  Yup.required Yup.string_ "Nome obrigatório".

Definition email_schema : Yup.StringSchema :=
  Yup.email (Yup.required Yup.string_ "E-mail obrigatório")
            "Digite um e-mail válido".

Definition old_password_schema : Yup.StringSchema := Yup.string_.

Definition password_schema : Yup.StringSchema :=
  Yup.when Yup.string_ "old_password" JS.truthy
    (Yup.required Yup.string_ "Campo obrigatório")
    Yup.string_.

Definition password_confirmation_schema : Yup.StringSchema :=
  Yup.oneOf
    (Yup.when Yup.string_ "old_password" JS.truthy
       (Yup.required Yup.string_ "Campo obrigatório")
       Yup.string_)
    [Yup.ref "password"; Yup.null] "Confirmação incorreta".

Definition schema : Yup.ObjectSchema :=
  [ ("name", name_schema);
    ("email", email_schema);
    ("old_password", old_password_schema);
    ("password", password_schema);
    ("password_confirmation", password_confirmation_schema) ].

(** Modelled from the spec: [utils/getValidationErrors] is imported by the
    screen but is not among the sources; the spec has the field-level error
    messages attached to the form keyed by field name, so each inner error
    is filed under its path. *)
Definition getValidationErrors (err : Yup.ValidationError) : gmap string string :=
  foldl (λ errors e, <[Yup.path e := Yup.message e]> errors) ∅ (Yup.inner err).

(** What [handleSubmit] can catch. *)
Inductive SubmitError :=
| ValidationError (err : Yup.ValidationError)
| RequestError (err : ApiError).

Definition options : ImagePicker.Options :=
  {| ImagePicker.title := "Selecione um avatar";
     ImagePicker.cancelButtonTitle := "Cancelar";
     ImagePicker.takePhotoButtonTitle := "Usar câmera";
     ImagePicker.chooseFromLibraryButtonTitle := "Escolha da galeria";
     ImagePicker.allowsEditing := true;
     ImagePicker.quality := 1;
     ImagePicker.mediaType := "photo" |}.

(** The body of the request, [const formData = { name, email, ...(...) }]. *)
Definition formData (data : ProfileFormData) : gmap string string :=
  JS.spread
    {[ "name" := name data; "email" := email data ]}
    (if JS.truthy (Some (old_password data))
     then {[ "old_password" := old_password data;
             "password" := password data;
             "password_confirmation" := password_confirmation data ]}
     else ∅).

(** The multipart body of the upload: a fresh [FormData] with the picked
    file appended under [avatar]. *)
Definition avatarData (response : ImagePicker.Response) : FormData.t :=
  FormData.append [] "avatar"
    {| FormData.type := ImagePicker.type response;
       FormData.name := ImagePicker.fileName response;
       FormData.uri := ImagePicker.uri response |}.

Global Arguments formData : simpl never.
Global Arguments avatarData : simpl never.

Section Profile.

Variable rEmail : string → bool.
Variable env : Env.

(** [formRef.current?.setErrors(errors)]: nothing happens on a [null]
    reference. *)
Definition formRef_setErrors {E} (errors : gmap string string) : M E unit :=
  λ w,
    match formRef_current w with
    | Some _ =>
        (inl (),
         {| session_user := session_user w;
            formRef_current := Some errors;
            trace := trace w ++ [EvSetErrors errors] |})
    | None => (inl (), w)
    end.

Definition schema_validate (data : ProfileFormData) (opts : Yup.ValidateOptions)
  : M SubmitError (gmap string string) :=
  match Yup.validate rEmail schema (to_object data) opts with
  | inl v => mret v
  | inr err => throw (ValidationError err)
  end.

Definition api_put_ (url : string) (body : gmap string string)
  : M SubmitError (gmap string string) :=
  emit (EvApiPut url body);;
  match api_put env url body with
  | resolved data => mret data
  | rejected err => throw (RequestError err)
  end.

Definition api_patch_ (url : string) (body : FormData.t)
  : M ApiError (gmap string string) :=
  emit (EvApiPatch url body);;
  match api_patch env url body with
  | resolved data => mret data
  | rejected err => throw err
  end.

(** Modelled from the spec: [hooks/auth] is not among the sources; the
    spec has [updateUser(userRecord)] replace the current user wholesale. *)
Definition updateUser {E} (user : gmap string string) : M E unit :=
  λ w,
    (inl (),
     {| session_user := user;
        formRef_current := formRef_current w;
        trace := trace w ++ [EvUpdateUser user] |}).

Definition Alert_alert {E} (title : string) (message : JS.value) : M E unit :=
  emit (EvAlert title message).

Definition goBack {E} : M E unit := emit EvGoBack.

Definition handleSubmit (data : ProfileFormData) : M SubmitError unit :=
  try_catch
    (formRef_setErrors ∅;;
     schema_validate data {| Yup.abortEarly := false |};;
     response ← api_put_ "/profile" (formData data);
     updateUser response;;
     Alert_alert "Perfil atualizado!"
       (Some "Suas informações do perfil foram atualizadas com sucesso!");;
     goBack)
    (λ err,
       match err with
       | ValidationError err =>
           let errors := getValidationErrors err in
           formRef_setErrors errors
       | RequestError _ =>
           Alert_alert "Erro na atualização"
             (Some "Ocorreu um erro ao atualizar o perfil. Tente novamente.")
       end).

Definition PermissionsAndroid_check_ {E} (p : Permission) : M E bool :=
  emit (EvPermCheck p);; mret (PermissionsAndroid_check env p).

Definition PermissionsAndroid_request_ {E} (p : Permission) : M E PermissionStatus :=
  emit (EvPermRequest p);; mret (PermissionsAndroid_request env p).

Definition requestCameraPermissions {E} : M E bool :=
  hasCameraPermission ← PermissionsAndroid_check_ CAMERA;
  if negb hasCameraPermission then
    requestResult ← PermissionsAndroid_request_ CAMERA;
    mret (bool_decide (requestResult = GRANTED))
  else mret true.

Definition requestReadStoragePermissions {E} : M E bool :=
  hasReadStoragePermission ← PermissionsAndroid_check_ READ_EXTERNAL_STORAGE;
  if negb hasReadStoragePermission then
    requestResult ← PermissionsAndroid_request_ READ_EXTERNAL_STORAGE;
    mret (bool_decide (requestResult = GRANTED))
  else mret true.

Definition requestWriteStoragePermissions {E} : M E bool :=
  hasWriteStoragePermission ← PermissionsAndroid_check_ WRITE_EXTERNAL_STORAGE;
  if negb hasWriteStoragePermission then
    requestResult ← PermissionsAndroid_request_ WRITE_EXTERNAL_STORAGE;
    mret (bool_decide (requestResult = GRANTED))
  else mret true.

(** The callback handed to [ImagePicker.showImagePicker]. *)
Definition avatarCallback (response : ImagePicker.Response) : M ApiError unit :=
  if ImagePicker.didCancel response then mret ()
  else if JS.truthy (ImagePicker.error response) then
    Alert_alert "Erro ao atualizar seu avatar." None
  else
    let data := avatarData response in
    try_catch
      (apiResponse ← api_patch_ "/users/avatar" data;
       updateUser apiResponse)
      (λ error,
         Alert_alert "Erro ao atualizar o seu avatar"
           (Some (JSON_stringify error))).

(** [ImagePicker.showImagePicker(options, callback)]: the picker opens and
    then answers through the callback. *)
Definition ImagePicker_showImagePicker {E} (opts : ImagePicker.Options)
    (callback : ImagePicker.Response → M E unit) : M E unit :=
  emit (EvShowImagePicker opts);;
  callback (ImagePicker_response env).

Definition handleUpdateAvatar : M ApiError unit :=
  let showImagePicker := ImagePicker_showImagePicker options avatarCallback in
  if bool_decide (Platform_OS env = android) then
    cameraPermissionGranted ← requestCameraPermissions;
    readStoragePermissionGranted ← requestReadStoragePermissions;
    writeStoragePermissionGranted ← requestWriteStoragePermissions;
    if negb cameraPermissionGranted then
      Alert_alert "Permissão necessária"
        (Some "Precisamos de permissão da sua camera para podermos tirar uma bela foto de perfil sua!")
    else if negb readStoragePermissionGranted then
      Alert_alert "Permissão necessária"
        (Some "Precisamos de permissão para carregar seus arquivos de imagem!")
    else if negb writeStoragePermissionGranted then
      Alert_alert "Permissão necessária"
        (Some "Precisamos de permissão para salvar as fotos que você tirar!")
    else showImagePicker
  else showImagePicker.

End Profile.

(** The calls a run adds to the trace. *)
Definition calls {E A} (m : M E A) (w : World) : list Event :=
  drop (length (trace w)) (trace (run m w)).

Definition is_api_call (ev : Event) : bool :=
  match ev with
  | EvApiPut _ _ | EvApiPatch _ _ => true
  | _ => false
  end.

Definition is_alert (ev : Event) : bool :=
  match ev with
  | EvAlert _ _ => true
  | _ => false
  end.

Definition is_permission_call (ev : Event) : bool :=
  match ev with
  | EvPermCheck _ | EvPermRequest _ => true
  | _ => false
  end.

Definition is_updateUser (ev : Event) : bool :=
  match ev with
  | EvUpdateUser _ => true
  | _ => false
  end.

Definition is_showImagePicker (ev : Event) : bool :=
  match ev with
  | EvShowImagePicker _ => true
  | _ => false
  end.

(** The call [formRef.current?.setErrors(errors)] makes, if any. *)
Definition setErrors_call (w : World) (errors : gmap string string) : list Event :=
  match formRef_current w with
  | Some _ => [EvSetErrors errors]
  | None => []
  end.

(** Whether a permission ends up granted: it is held already, or the
    request for it is answered [GRANTED]. *)
Definition permission_granted (env : Env) (p : Permission) : bool :=
  PermissionsAndroid_check env p
  || bool_decide (PermissionsAndroid_request env p = GRANTED).

(** The calls one permission helper makes: the check, and the request only
    when the check says the permission is not held. *)
Definition permission_calls (env : Env) (p : Permission) : list Event :=
  EvPermCheck p ::
  (if PermissionsAndroid_check env p then [] else [EvPermRequest p]).

(** A world after further calls. *)
Definition log (w : World) (l : list Event) : World :=
  {| session_user := session_user w;
     formRef_current := formRef_current w;
     trace := trace w ++ l |}.

(** The calls of the three permission helpers, in the order the handler
    awaits them. *)
Definition all_permission_calls (env : Env) : list Event :=
  permission_calls env CAMERA
  ++ permission_calls env READ_EXTERNAL_STORAGE
  ++ permission_calls env WRITE_EXTERNAL_STORAGE.

(** ** Sample inputs *)

Module Examples.

(** A stand-in for the email pattern: the address has an [@]. *)
Definition rEmail (s : string) : bool :=
  match String.index 0 "@" s with
  | Some _ => true
  | None => false
  end.

Definition ana : ProfileFormData :=
  {| name := "Ana"; email := "a@x.com";
     old_password := ""; password := ""; password_confirmation := "" |}.

(** Nothing in the two password fields, something in the confirmation. *)
Definition ana_stray_confirmation : ProfileFormData :=
  {| name := "Ana"; email := "a@x.com";
     old_password := ""; password := ""; password_confirmation := "x" |}.

Definition ana_new_password : ProfileFormData :=
  {| name := "Ana"; email := "a@x.com";
     old_password := "123456"; password := "abcdef";
     password_confirmation := "abcdef" |}.

Definition ana_mismatch : ProfileFormData :=
  {| name := "Ana"; email := "a@x.com";
     old_password := "123456"; password := "abcdef";
     password_confirmation := "abcdeg" |}.

(** No name, a malformed address and a password change left blank. *)
Definition blank : ProfileFormData :=
  {| name := ""; email := "ana"; old_password := "123456";
     password := ""; password_confirmation := "" |}.

Definition u0 : gmap string string :=
  {[ "id" := "u1"; "name" := "Ana Maria"; "email" := "am@x.com";
     "avatar_url" := "http://x/old.png" ]}.

Definition u1 : gmap string string :=
  {[ "id" := "u1"; "name" := "Ana"; "email" := "a@x.com" ]}.

Definition w0 : World :=
  {| session_user := u0; formRef_current := Some ∅; trace := [] |}.

Definition picked : ImagePicker.Response :=
  {| ImagePicker.didCancel := false;
     ImagePicker.error := None;
     ImagePicker.type := Some "image/png";
     ImagePicker.uri := Some "file:///a.png";
     ImagePicker.fileName := Some "a.png" |}.

Definition cancelled : ImagePicker.Response :=
  {| ImagePicker.didCancel := true;
     ImagePicker.error := None;
     ImagePicker.type := None;
     ImagePicker.uri := None;
     ImagePicker.fileName := None |}.

(** An iOS device on a working network. *)
Definition env_ios : Env :=
  {| Platform_OS := ios;
     api_put := λ _ _, resolved u1;
     api_patch := λ _ _, resolved u1;
     PermissionsAndroid_check := λ _, false;
     PermissionsAndroid_request := λ _, DENIED;
     ImagePicker_response := picked |}.

Definition env_ios_cancel : Env :=
  {| Platform_OS := ios;
     api_put := λ _ _, resolved u1;
     api_patch := λ _ _, resolved u1;
     PermissionsAndroid_check := λ _, false;
     PermissionsAndroid_request := λ _, DENIED;
     ImagePicker_response := cancelled |}.

(** The same device with the API out of reach. *)
Definition env_offline : Env :=
  {| Platform_OS := ios;
     api_put := λ _ _, rejected {| JSON_stringify := "{}" |};
     api_patch := λ _ _, rejected {| JSON_stringify := "{}" |};
     PermissionsAndroid_check := λ _, false;
     PermissionsAndroid_request := λ _, DENIED;
     ImagePicker_response := picked |}.

(** An Android device that holds the camera permission and whose user
    refuses read access to the storage and accepts write access. *)
Definition env_read_denied : Env :=
  {| Platform_OS := android;
     api_put := λ _ _, resolved u1;
     api_patch := λ _ _, resolved u1;
     PermissionsAndroid_check := λ p, bool_decide (p = CAMERA);
     PermissionsAndroid_request :=
       λ p, if bool_decide (p = READ_EXTERNAL_STORAGE) then DENIED else GRANTED;
     ImagePicker_response := picked |}.

End Examples.

(** ** The rest of the screen *)

(** [handleGoBack], the handler of the back button. *)
Definition handleGoBack {E} : M E unit := goBack.

(** The helper the screen has for each permission. *)
Definition permission_helper (env : Env) {E} (p : Permission) : M E bool :=
  match p with
  | CAMERA => requestCameraPermissions env
  | READ_EXTERNAL_STORAGE => requestReadStoragePermissions env
  | WRITE_EXTERNAL_STORAGE => requestWriteStoragePermissions env
  end.

(** The five inputs of the form, in the order the screen renders them. *)
Inductive Input :=
| input_name
| input_email
| input_old_password
| input_password
| input_password_confirmation.

Global Instance Input_eq_dec : EqDecision Input.
Proof. solve_decision. Defined.

(** The references the screen creates for its inputs with [useRef]. *)
Inductive InputRef :=
| emailInputRef
| oldPasswordInputRef
| passwordInputRef
| confirmPasswordInputRef.

Global Instance InputRef_eq_dec : EqDecision InputRef.
Proof. solve_decision. Defined.

(** The [ref] attribute of an input; the first input has none. *)
Definition ref_of (i : Input) : option InputRef :=
  match i with
  | input_name => None
  | input_email => Some emailInputRef
  | input_old_password => Some oldPasswordInputRef
  | input_password => Some passwordInputRef
  | input_password_confirmation => Some confirmPasswordInputRef
  end.

(** What the return key of an input does. *)
Inductive KeyAction :=
| focus (r : InputRef)
| submitForm.

(** The [onSubmitEditing] attribute of each input. *)
Definition onSubmitEditing (i : Input) : KeyAction :=
  match i with
  | input_name => focus emailInputRef
  | input_email => focus oldPasswordInputRef
  | input_old_password => focus passwordInputRef
  | input_password => focus confirmPasswordInputRef
  | input_password_confirmation => submitForm
  end.

(** The position of an input on the screen. *)
Definition position (i : Input) : nat :=
  match i with
  | input_name => 0
  | input_email => 1
  | input_old_password => 2
  | input_password => 3
  | input_password_confirmation => 4
  end.

(** The inputs the return key walks through from [i] before it submits the
    form, [i] included; [fuel] bounds the walk. *)
Fixpoint return_key_walk (fuel : nat) (i : Input) : option (list Input) :=
  match fuel with
  | 0 => None
  | S fuel =>
      match onSubmitEditing i with
      | submitForm => Some [i]
      | focus r =>
          match List.find (λ j, bool_decide (ref_of j = Some r))
                  [input_name; input_email; input_old_password;
                   input_password; input_password_confirmation] with
          | Some j => cons i <$> return_key_walk fuel j
          | None => None
          end
      end
  end.

(** ** More sample inputs *)

Module Samples.

(** A new password typed twice, without the current one. *)
Definition ana_forgot_current : ProfileFormData :=
  {| name := "Ana"; email := "a@x.com";
     old_password := ""; password := "abcdef";
     password_confirmation := "abcdef" |}.

(** A world whose form still shows the errors of an earlier attempt. *)
Definition w_stale : World :=
  {| session_user := Examples.u0;
     formRef_current := Some {[ "name" := "Nome obrigatório" ]};
     trace := [EvGoBack] |}.

Definition failed_pick : ImagePicker.Response :=
  {| ImagePicker.didCancel := false;
     ImagePicker.error := Some "camera unavailable";
     ImagePicker.type := None;
     ImagePicker.uri := None;
     ImagePicker.fileName := None |}.

(** An Android device on which every permission is held or granted on
    request. *)
Definition env_android : Env :=
  {| Platform_OS := android;
     api_put := λ _ _, resolved Examples.u1;
     api_patch := λ _ _, resolved Examples.u1;
     PermissionsAndroid_check := λ p, bool_decide (p = CAMERA);
     PermissionsAndroid_request := λ _, GRANTED;
     ImagePicker_response := Examples.picked |}.

(** An Android device whose user has ticked "never ask again" for the
    camera. *)
Definition env_never_ask_again : Env :=
  {| Platform_OS := android;
     api_put := λ _ _, resolved Examples.u1;
     api_patch := λ _ _, resolved Examples.u1;
     PermissionsAndroid_check := λ _, false;
     PermissionsAndroid_request :=
       λ p, if bool_decide (p = CAMERA) then NEVER_ASK_AGAIN else GRANTED;
     ImagePicker_response := Examples.picked |}.

Definition env_picker_error : Env :=
  {| Platform_OS := ios;
     api_put := λ _ _, resolved Examples.u1;
     api_patch := λ _ _, resolved Examples.u1;
     PermissionsAndroid_check := λ _, false;
     PermissionsAndroid_request := λ _, DENIED;
     ImagePicker_response := failed_pick |}.

(** No name, and a new password mistyped in the confirmation. *)
Definition nameless_mismatch : ProfileFormData :=
  {| name := ""; email := "a@x.com"; old_password := "123456";
     password := "abcdef"; password_confirmation := "abcdeg" |}.

End Samples.

(** Unfolds the monad in a goal about a run of a handler. *)
Ltac run_handler :=
  unfold run, try_catch, throw, emit, mbind, mret, M_bind, M_ret; cbn.

(** * Properties *)

(** ** The object under validation *)

Lemma to_object_name data : to_object data !! "name" = Some (name data).
Proof. reflexivity. Qed.

Lemma to_object_email data : to_object data !! "email" = Some (email data).
Proof. reflexivity. Qed.

Lemma to_object_old_password data :
  to_object data !! "old_password" = Some (old_password data).
Proof. reflexivity. Qed.

Lemma to_object_password data :
  to_object data !! "password" = Some (password data).
Proof. reflexivity. Qed.

Lemma to_object_password_confirmation data :
  to_object data !! "password_confirmation" = Some (password_confirmation data).
Proof. reflexivity. Qed.

Lemma eqb_empty_false s : s ≠ "" → String.eqb s "" = false.
Proof. intros H. by apply String.eqb_neq. Qed.

Lemma eqb_empty_true s : s = "" → String.eqb s "" = true.
Proof. intros ->. reflexivity. Qed.

(** ** Validation, field by field *)

Section Validation.

Variable rEmail : string → bool.

Lemma name_errors data :
  Yup.validate_field rEmail (to_object data) ("name", name_schema) =
    if String.eqb (name data) ""
    then [ {| Yup.path := "name"; Yup.message := "Nome obrigatório" |} ]
    else [].
Proof.
  unfold Yup.validate_field. rewrite to_object_name. cbn.
  by destruct (String.eqb (name data) "").
Qed.

Lemma email_errors data :
  Yup.validate_field rEmail (to_object data) ("email", email_schema) =
    if String.eqb (email data) ""
    then [ {| Yup.path := "email"; Yup.message := "E-mail obrigatório" |} ]
    else if rEmail (email data) then []
    else [ {| Yup.path := "email"; Yup.message := "Digite um e-mail válido" |} ].
Proof.
  unfold Yup.validate_field. rewrite to_object_email. cbn.
  destruct (String.eqb (email data) ""); [done|].
  by destruct (rEmail (email data)).
Qed.

Lemma old_password_errors data :
  Yup.validate_field rEmail (to_object data)
    ("old_password", old_password_schema) = [].
Proof. reflexivity. Qed.

Lemma password_errors data :
  Yup.validate_field rEmail (to_object data) ("password", password_schema) =
    if String.eqb (old_password data) "" then []
    else if String.eqb (password data) ""
    then [ {| Yup.path := "password"; Yup.message := "Campo obrigatório" |} ]
    else [].
Proof.
  unfold Yup.validate_field, password_schema. cbn [Yup.resolve].
  rewrite to_object_old_password, to_object_password. cbn.
  destruct (String.eqb (old_password data) ""); [done|]. cbn.
  by destruct (String.eqb (password data) "").
Qed.

Lemma password_confirmation_errors data :
  Yup.validate_field rEmail (to_object data)
    ("password_confirmation", password_confirmation_schema) =
    if bool_decide (password data = password_confirmation data) then
      if String.eqb (old_password data) "" then []
      else if String.eqb (password_confirmation data) ""
      then [ {| Yup.path := "password_confirmation";
                Yup.message := "Campo obrigatório" |} ]
      else []
    else [ {| Yup.path := "password_confirmation";
              Yup.message := "Confirmação incorreta" |} ].
Proof.
  unfold Yup.validate_field, password_confirmation_schema.
  cbn [Yup.resolve].
  rewrite to_object_old_password, to_object_password_confirmation.
  cbn [Yup.whitelistError Yup.whitelist_ok Yup.whitelist Yup.tests
       Yup.concat JS.truthy].
  assert (bool_decide (to_object data !! "password"
                       = Some (password_confirmation data))
          = bool_decide (password data = password_confirmation data)) as Href.
  { rewrite to_object_password.
    apply bool_decide_ext. split; [by intros [= ->] | by intros ->]. }
  destruct (String.eqb (old_password data) "");
    cbn [negb Yup.whitelist Yup.tests app existsb Yup.enum_has];
    rewrite Href, !orb_false_r;
    destruct (bool_decide (password data = password_confirmation data));
    try done.
  cbn. by destruct (String.eqb (password_confirmation data) "").
Qed.

(** The errors of a run over the whole shape are those of the five
    fields, in the order of the shape. *)
Lemma schema_errors data :
  schema ≫= Yup.validate_field rEmail (to_object data) =
    Yup.validate_field rEmail (to_object data) ("name", name_schema)
    ++ Yup.validate_field rEmail (to_object data) ("email", email_schema)
    ++ Yup.validate_field rEmail (to_object data)
         ("old_password", old_password_schema)
    ++ Yup.validate_field rEmail (to_object data) ("password", password_schema)
    ++ Yup.validate_field rEmail (to_object data)
         ("password_confirmation", password_confirmation_schema).
Proof.
  unfold schema. cbn [mbind list_bind]. by rewrite app_nil_r.
Qed.

End Validation.

(** ** Runs of the handlers *)

Lemma calls_app {E A} (m : M E A) (w : World) (l : list Event) :
  trace (run m w) = trace w ++ l → calls m w = l.
Proof. unfold calls. intros ->. by rewrite drop_app_length. Qed.

Section Runs.

Variable rEmail : string → bool.
Variable env : Env.

(** A rejected validation: the errors go to the form and nothing else
    happens. *)
Lemma handleSubmit_invalid data err w :
  Yup.validate rEmail schema (to_object data) {| Yup.abortEarly := false |}
    = inr err →
  handleSubmit rEmail env data w =
    (inl (),
     {| session_user := session_user w;
        formRef_current := (λ _, getValidationErrors err) <$> formRef_current w;
        trace := trace w ++ setErrors_call w ∅
                 ++ setErrors_call w (getValidationErrors err) |}).
Proof.
  intros Hv. unfold handleSubmit, schema_validate, formRef_setErrors, setErrors_call.
  run_handler. destruct (formRef_current w) eqn:Hf; cbn; rewrite Hv; cbn.
  - by rewrite <- app_assoc.
  - rewrite Hf. destruct w; cbn in *. by rewrite app_nil_r, Hf.
Qed.

(** An accepted validation and an accepted request. *)
Lemma handleSubmit_resolved data v user w :
  Yup.validate rEmail schema (to_object data) {| Yup.abortEarly := false |}
    = inl v →
  api_put env "/profile" (formData data) = resolved user →
  handleSubmit rEmail env data w =
    (inl (),
     {| session_user := user;
        formRef_current := (λ _, ∅) <$> formRef_current w;
        trace := trace w ++ setErrors_call w ∅
                 ++ [ EvApiPut "/profile" (formData data);
                      EvUpdateUser user;
                      EvAlert "Perfil atualizado!"
                        (Some "Suas informações do perfil foram atualizadas com sucesso!");
                      EvGoBack ] |}).
Proof.
  intros Hv Hput.
  unfold handleSubmit, schema_validate, formRef_setErrors, setErrors_call,
    api_put_, updateUser, Alert_alert, goBack.
  run_handler. destruct (formRef_current w) eqn:Hf; cbn; rewrite Hv; cbn;
    rewrite Hput; cbn; rewrite ?Hf; cbn; by rewrite <- ?app_assoc.
Qed.

(** An accepted validation and a rejected request. *)
Lemma handleSubmit_rejected data v err w :
  Yup.validate rEmail schema (to_object data) {| Yup.abortEarly := false |}
    = inl v →
  api_put env "/profile" (formData data) = rejected err →
  handleSubmit rEmail env data w =
    (inl (),
     {| session_user := session_user w;
        formRef_current := (λ _, ∅) <$> formRef_current w;
        trace := trace w ++ setErrors_call w ∅
                 ++ [ EvApiPut "/profile" (formData data);
                      EvAlert "Erro na atualização"
                        (Some "Ocorreu um erro ao atualizar o perfil. Tente novamente.") ] |}).
Proof.
  intros Hv Hput.
  unfold handleSubmit, schema_validate, formRef_setErrors, setErrors_call,
    api_put_, updateUser, Alert_alert, goBack.
  run_handler. destruct (formRef_current w) eqn:Hf; cbn; rewrite Hv; cbn;
    rewrite Hput; cbn; rewrite ?Hf; cbn; by rewrite <- ?app_assoc.
Qed.

End Runs.

Lemma log_nil w : log w [] = w.
Proof. destruct w. unfold log. cbn. by rewrite app_nil_r. Qed.

Lemma log_log w l1 l2 : log (log w l1) l2 = log w (l1 ++ l2).
Proof. unfold log. cbn. by rewrite app_assoc. Qed.

Section AvatarRuns.

Variable env : Env.

Lemma requestCameraPermissions_run {E} w :
  requestCameraPermissions env (E := E) w =
    (inl (permission_granted env CAMERA), log w (permission_calls env CAMERA)).
Proof.
  unfold requestCameraPermissions, PermissionsAndroid_check_,
    PermissionsAndroid_request_, permission_granted, permission_calls, log.
  run_handler. destruct (PermissionsAndroid_check env CAMERA); cbn; [done|].
  by rewrite <- app_assoc.
Qed.

Lemma requestReadStoragePermissions_run {E} w :
  requestReadStoragePermissions env (E := E) w =
    (inl (permission_granted env READ_EXTERNAL_STORAGE),
     log w (permission_calls env READ_EXTERNAL_STORAGE)).
Proof.
  unfold requestReadStoragePermissions, PermissionsAndroid_check_,
    PermissionsAndroid_request_, permission_granted, permission_calls, log.
  run_handler.
  destruct (PermissionsAndroid_check env READ_EXTERNAL_STORAGE); cbn; [done|].
  by rewrite <- app_assoc.
Qed.

Lemma requestWriteStoragePermissions_run {E} w :
  requestWriteStoragePermissions env (E := E) w =
    (inl (permission_granted env WRITE_EXTERNAL_STORAGE),
     log w (permission_calls env WRITE_EXTERNAL_STORAGE)).
Proof.
  unfold requestWriteStoragePermissions, PermissionsAndroid_check_,
    PermissionsAndroid_request_, permission_granted, permission_calls, log.
  run_handler.
  destruct (PermissionsAndroid_check env WRITE_EXTERNAL_STORAGE); cbn; [done|].
  by rewrite <- app_assoc.
Qed.

(** The four ways the callback of the picker can go. *)
Lemma avatarCallback_cancel response w :
  ImagePicker.didCancel response = true →
  avatarCallback env response w = (inl (), w).
Proof. intros H. unfold avatarCallback. by rewrite H. Qed.

Lemma avatarCallback_error response w :
  ImagePicker.didCancel response = false →
  JS.truthy (ImagePicker.error response) = true →
  avatarCallback env response w =
    (inl (), log w [EvAlert "Erro ao atualizar seu avatar." None]).
Proof. intros H1 H2. unfold avatarCallback. by rewrite H1, H2. Qed.

Lemma avatarCallback_resolved response user w :
  ImagePicker.didCancel response = false →
  JS.truthy (ImagePicker.error response) = false →
  api_patch env "/users/avatar" (avatarData response) = resolved user →
  avatarCallback env response w =
    (inl (),
     {| session_user := user;
        formRef_current := formRef_current w;
        trace := trace w ++ [ EvApiPatch "/users/avatar" (avatarData response);
                              EvUpdateUser user ] |}).
Proof.
  intros H1 H2 H3. unfold avatarCallback, api_patch_, updateUser.
  rewrite H1, H2. run_handler. rewrite H3. cbn. by rewrite <- app_assoc.
Qed.

Lemma avatarCallback_rejected response err w :
  ImagePicker.didCancel response = false →
  JS.truthy (ImagePicker.error response) = false →
  api_patch env "/users/avatar" (avatarData response) = rejected err →
  avatarCallback env response w =
    (inl (),
     log w [ EvApiPatch "/users/avatar" (avatarData response);
             EvAlert "Erro ao atualizar o seu avatar"
               (Some (JSON_stringify err)) ]).
Proof.
  intros H1 H2 H3. unfold avatarCallback, api_patch_, Alert_alert, log.
  rewrite H1, H2. run_handler. rewrite H3. cbn. by rewrite <- app_assoc.
Qed.

Lemma showImagePicker_run w :
  ImagePicker_showImagePicker env options (avatarCallback env) w =
    avatarCallback env (ImagePicker_response env)
      (log w [EvShowImagePicker options]).
Proof. reflexivity. Qed.

(** Off Android the handler is the call of the picker. *)
Lemma handleUpdateAvatar_other w :
  Platform_OS env ≠ android →
  handleUpdateAvatar env w =
    ImagePicker_showImagePicker env options (avatarCallback env) w.
Proof.
  intros H. unfold handleUpdateAvatar. by rewrite bool_decide_eq_false_2.
Qed.

(** On Android the three helpers run first, all of them, and only then
    are their answers looked at. *)
Lemma handleUpdateAvatar_android w :
  Platform_OS env = android →
  handleUpdateAvatar env w =
    let w' := log w (all_permission_calls env) in
    if negb (permission_granted env CAMERA) then
      (inl (),
       log w' [EvAlert "Permissão necessária"
                 (Some "Precisamos de permissão da sua camera para podermos tirar uma bela foto de perfil sua!")])
    else if negb (permission_granted env READ_EXTERNAL_STORAGE) then
      (inl (),
       log w' [EvAlert "Permissão necessária"
                 (Some "Precisamos de permissão para carregar seus arquivos de imagem!")])
    else if negb (permission_granted env WRITE_EXTERNAL_STORAGE) then
      (inl (),
       log w' [EvAlert "Permissão necessária"
                 (Some "Precisamos de permissão para salvar as fotos que você tirar!")])
    else ImagePicker_showImagePicker env options (avatarCallback env) w'.
Proof.
  intros H. unfold handleUpdateAvatar. rewrite bool_decide_eq_true_2 by done.
  unfold mbind at 1, M_bind at 1. rewrite requestCameraPermissions_run.
  unfold mbind at 1, M_bind at 1. rewrite requestReadStoragePermissions_run.
  unfold mbind at 1, M_bind at 1. rewrite requestWriteStoragePermissions_run.
  rewrite !log_log. fold (all_permission_calls env). cbn zeta.
  repeat (destruct (permission_granted env _); cbn [negb]); try done;
    unfold Alert_alert, emit, log; cbn; by rewrite <- app_assoc.
Qed.

End AvatarRuns.

(** ** The profile submission *)

Section ValidateOutcome.

Variable rEmail : string → bool.

Lemma validate_inr data err :
  Yup.validate rEmail schema (to_object data) {| Yup.abortEarly := false |}
    = inr err →
  Yup.inner err = schema ≫= Yup.validate_field rEmail (to_object data).
Proof.
  unfold Yup.validate. cbv zeta.
  destruct (schema ≫= Yup.validate_field rEmail (to_object data)) eqn:He;
    [done|]. cbn [Yup.abortEarly]. by intros [= <-].
Qed.

Lemma validate_fails data :
  schema ≫= Yup.validate_field rEmail (to_object data) ≠ [] →
  Yup.validate rEmail schema (to_object data) {| Yup.abortEarly := false |}
    = inr {| Yup.inner := schema ≫= Yup.validate_field rEmail (to_object data) |}.
Proof.
  unfold Yup.validate. cbv zeta.
  by destruct (schema ≫= Yup.validate_field rEmail (to_object data)).
Qed.

Lemma validate_passes data :
  schema ≫= Yup.validate_field rEmail (to_object data) = [] →
  Yup.validate rEmail schema (to_object data) {| Yup.abortEarly := false |}
    = inl (to_object data).
Proof. unfold Yup.validate. cbv zeta. by intros ->. Qed.

Lemma validate_inl data v :
  Yup.validate rEmail schema (to_object data) {| Yup.abortEarly := false |}
    = inl v →
  schema ≫= Yup.validate_field rEmail (to_object data) = [].
Proof.
  unfold Yup.validate. cbv zeta.
  by destruct (schema ≫= Yup.validate_field rEmail (to_object data)).
Qed.

(** An error of a field carries the field's key as its path. *)
Lemma validate_field_path parent key s e :
  e ∈ Yup.validate_field rEmail parent (key, s) → Yup.path e = key.
Proof.
  unfold Yup.validate_field.
  destruct (Yup.whitelistError _); [destruct (Yup.whitelist_ok _ _ _)|].
  - intros (t & -> & _)%list_elem_of_fmap. done.
  - by intros ->%list_elem_of_singleton.
  - intros (t & -> & _)%list_elem_of_fmap. done.
Qed.

End ValidateOutcome.

(** ** The error map of the form *)

Lemma getValidationErrors_snoc l e :
  getValidationErrors {| Yup.inner := l ++ [e] |} =
    <[Yup.path e := Yup.message e]> (getValidationErrors {| Yup.inner := l |}).
Proof. unfold getValidationErrors. cbn. by rewrite foldl_app. Qed.

(** A path with an error has a message in the map, and the message is one
    of the errors reported for the path. *)
Lemma getValidationErrors_lookup l key :
  (∃ e, e ∈ l ∧ Yup.path e = key) →
  ∃ m, getValidationErrors {| Yup.inner := l |} !! key = Some m
       ∧ {| Yup.path := key; Yup.message := m |} ∈ l.
Proof.
  induction l as [|e l IH] using rev_ind.
  - intros (e & He & _). by apply elem_of_nil in He.
  - intros (e' & He' & Hp). rewrite getValidationErrors_snoc.
    destruct (decide (Yup.path e = key)) as [<-|Hne].
    + exists (Yup.message e). rewrite lookup_insert_eq. split; [done|].
      apply elem_of_app. right. destruct e. cbn. apply list_elem_of_singleton. done.
    + rewrite lookup_insert_ne by done.
      apply elem_of_app in He' as [He'|He'].
      * destruct IH as (m & Hm & Hin); [by eauto|].
        exists m. split; [done|]. apply elem_of_app. by left.
      * apply list_elem_of_singleton in He'. by subst e'.
Qed.

Lemma formData_unchanged_password data :
  old_password data = "" →
  formData data = {[ "name" := name data; "email" := email data ]}.
Proof.
  intros H. unfold formData, JS.spread, JS.truthy. rewrite H. cbn.
  by rewrite (left_id_L ∅ (∪)).
Qed.

Lemma formData_new_password data :
  old_password data ≠ "" →
  formData data =
    {[ "name" := name data; "email" := email data;
       "old_password" := old_password data;
       "password" := password data;
       "password_confirmation" := password_confirmation data ]}.
Proof.
  intros H. unfold formData, JS.spread, JS.truthy.
  rewrite eqb_empty_false by done. cbn. reflexivity.
Qed.

Lemma submit_calls rEmail env data w w' l :
  handleSubmit rEmail env data w = (inl (), w') →
  trace w' = trace w ++ l →
  calls (handleSubmit rEmail env data) w = l.
Proof. intros Hrun Htr. apply calls_app. unfold run. by rewrite Hrun. Qed.

(** C2. For every form data that passes validation the submission makes one
    call to the API, the put of the body [formData] on [/profile]; when
    [old_password] is empty the body has exactly the fields [name] and
    [email], otherwise it has exactly [name], [email], [old_password],
    [password] and [password_confirmation]. *)
Theorem C2_payload_fields rEmail env w data v :
  Yup.validate rEmail schema (to_object data) {| Yup.abortEarly := false |}
    = inl v →
  List.filter is_api_call (calls (handleSubmit rEmail env data) w)
    = [EvApiPut "/profile" (formData data)]
  ∧ (old_password data = "" →
     formData data = {[ "name" := name data; "email" := email data ]}
     ∧ dom (formData data) = ({[ "name"; "email" ]} : gset string))
  ∧ (old_password data ≠ "" →
     formData data =
       {[ "name" := name data; "email" := email data;
          "old_password" := old_password data;
          "password" := password data;
          "password_confirmation" := password_confirmation data ]}
     ∧ dom (formData data) =
         ({[ "name"; "email"; "old_password"; "password";
             "password_confirmation" ]} : gset string)).
Proof.
  intros Hv. split; [|split].
  - destruct (api_put env "/profile" (formData data)) as [user|err] eqn:Hput.
    + erewrite submit_calls;
        [|by apply (handleSubmit_resolved _ _ _ _ _ _ Hv Hput)|reflexivity].
      unfold setErrors_call. by destruct (formRef_current w).
    + erewrite submit_calls;
        [|by apply (handleSubmit_rejected _ _ _ _ _ _ Hv Hput)|reflexivity].
      unfold setErrors_call. by destruct (formRef_current w).
  - intros H. rewrite formData_unchanged_password by done. split; [done|].
    rewrite !dom_insert_L, dom_singleton_L. set_solver.
  - intros H. rewrite formData_new_password by done. split; [done|].
    rewrite !dom_insert_L, dom_singleton_L. set_solver.
Qed.

Lemma C2_payload_fields_witness :
  Yup.validate Examples.rEmail schema (to_object Examples.ana_new_password)
    {| Yup.abortEarly := false |} = inl (to_object Examples.ana_new_password)
  ∧ List.filter is_api_call
      (calls (handleSubmit Examples.rEmail Examples.env_ios
                Examples.ana_new_password) Examples.w0)
    = [EvApiPut "/profile" (formData Examples.ana_new_password)]
  ∧ dom (formData Examples.ana_new_password) =
      ({[ "name"; "email"; "old_password"; "password";
          "password_confirmation" ]} : gset string).
Proof.
  assert (Yup.validate Examples.rEmail schema
            (to_object Examples.ana_new_password)
            {| Yup.abortEarly := false |}
          = inl (to_object Examples.ana_new_password)) as Hv
    by (vm_compute; reflexivity).
  destruct (C2_payload_fields Examples.rEmail Examples.env_ios Examples.w0
              Examples.ana_new_password _ Hv) as (Hcalls & _ & Hnew).
  split; [exact Hv|]. split; [exact Hcalls|].
  apply Hnew. vm_compute. discriminate.
Defined.

(** C3. For every form data with a non-empty [old_password] and a
    [password_confirmation] that differs from [password], validation is
    rejected with the error [Confirmação incorreta] at the path
    [password_confirmation], that message is what the form gets for the
    field, and the submission makes no call to the API. *)
Theorem C3_confirmation_mismatch rEmail env w data :
  old_password data ≠ "" →
  password data ≠ password_confirmation data →
  ∃ err,
    Yup.validate rEmail schema (to_object data) {| Yup.abortEarly := false |}
      = inr err
    ∧ {| Yup.path := "password_confirmation";
         Yup.message := "Confirmação incorreta" |} ∈ Yup.inner err
    ∧ getValidationErrors err !! "password_confirmation"
        = Some "Confirmação incorreta"
    ∧ List.filter is_api_call (calls (handleSubmit rEmail env data) w) = []
    ∧ formRef_current (run (handleSubmit rEmail env data) w)
        = (λ _, getValidationErrors err) <$> formRef_current w.
Proof.
  intros Hold Hne.
  pose proof (schema_errors rEmail data) as Herrs.
  rewrite password_confirmation_errors in Herrs.
  rewrite bool_decide_eq_false_2 in Herrs by done.
  rewrite !app_assoc in Herrs.
  set (e := {| Yup.path := "password_confirmation";
               Yup.message := "Confirmação incorreta" |}) in *.
  match type of Herrs with _ = ?l ++ [e] => set (front := l) in * end.
  assert (Yup.validate rEmail schema (to_object data)
            {| Yup.abortEarly := false |}
          = inr {| Yup.inner := front ++ [e] |}) as Hv.
  { rewrite validate_fails; rewrite Herrs; [done|]. by destruct front. }
  exists {| Yup.inner := front ++ [e] |}. split; [done|]. split.
  { cbn. apply elem_of_app. right. by apply list_elem_of_singleton. }
  split.
  { rewrite getValidationErrors_snoc. by rewrite lookup_insert_eq. }
  pose proof (handleSubmit_invalid rEmail env data _ w Hv) as Hrun. split.
  - erewrite submit_calls; [|exact Hrun|reflexivity].
    rewrite List.filter_app. unfold setErrors_call.
    by destruct (formRef_current w).
  - unfold run. by rewrite Hrun.
Qed.

Lemma C3_confirmation_mismatch_witness :
  old_password Examples.ana_mismatch ≠ ""
  ∧ password Examples.ana_mismatch ≠ password_confirmation Examples.ana_mismatch
  ∧ ∃ err,
      Yup.validate Examples.rEmail schema (to_object Examples.ana_mismatch)
        {| Yup.abortEarly := false |} = inr err
      ∧ getValidationErrors err !! "password_confirmation"
          = Some "Confirmação incorreta"
      ∧ List.filter is_api_call
          (calls (handleSubmit Examples.rEmail Examples.env_ios
                    Examples.ana_mismatch) Examples.w0) = [].
Proof.
  assert (old_password Examples.ana_mismatch ≠ "") as Hold
    by (vm_compute; discriminate).
  assert (password Examples.ana_mismatch
          ≠ password_confirmation Examples.ana_mismatch) as Hne
    by (vm_compute; discriminate).
  destruct (C3_confirmation_mismatch Examples.rEmail Examples.env_ios
              Examples.w0 Examples.ana_mismatch Hold Hne)
    as (err & Hv & _ & Hmsg & Hcalls & _).
  split; [exact Hold|]. split; [exact Hne|].
  exists err. split; [exact Hv|]. split; [exact Hmsg|exact Hcalls].
Defined.

(** C5. After a submission whose validation passes and whose put on
    [/profile] answers with a user record, the session user is that record,
    whatever it was before; the handler has called [updateUser] with the
    record, then shown the success alert, then gone back. *)
Theorem C5_success_replaces_user rEmail env w data v user :
  Yup.validate rEmail schema (to_object data) {| Yup.abortEarly := false |}
    = inl v →
  api_put env "/profile" (formData data) = resolved user →
  session_user (run (handleSubmit rEmail env data) w) = user
  ∧ calls (handleSubmit rEmail env data) w =
      setErrors_call w ∅
      ++ [ EvApiPut "/profile" (formData data);
           EvUpdateUser user;
           EvAlert "Perfil atualizado!"
             (Some "Suas informações do perfil foram atualizadas com sucesso!");
           EvGoBack ].
Proof.
  intros Hv Hput.
  pose proof (handleSubmit_resolved rEmail env data v user w Hv Hput) as Hrun.
  split.
  - unfold run. by rewrite Hrun.
  - by erewrite submit_calls; [|exact Hrun|reflexivity].
Qed.

Lemma C5_success_replaces_user_witness :
  Yup.validate Examples.rEmail schema (to_object Examples.ana)
    {| Yup.abortEarly := false |} = inl (to_object Examples.ana)
  ∧ api_put Examples.env_ios "/profile" (formData Examples.ana)
      = resolved Examples.u1
  ∧ session_user (run (handleSubmit Examples.rEmail Examples.env_ios
                         Examples.ana) Examples.w0) = Examples.u1
  ∧ session_user Examples.w0 ≠ Examples.u1.
Proof.
  assert (Yup.validate Examples.rEmail schema (to_object Examples.ana)
            {| Yup.abortEarly := false |} = inl (to_object Examples.ana)) as Hv
    by (vm_compute; reflexivity).
  assert (api_put Examples.env_ios "/profile" (formData Examples.ana)
          = resolved Examples.u1) as Hput by reflexivity.
  split; [exact Hv|]. split; [exact Hput|]. split.
  - apply (C5_success_replaces_user _ _ Examples.w0 _ _ _ Hv Hput).
  - vm_compute. discriminate.
Defined.

(** C6. When validation passes and the put on [/profile] is rejected, the
    handler shows the generic error alert and nothing else changes: the
    session user is the one from before, [updateUser] and [goBack] are not
    called, and the form is left with the empty error map the handler set at
    its start. *)
Theorem C6_request_failure rEmail env w data v err :
  Yup.validate rEmail schema (to_object data) {| Yup.abortEarly := false |}
    = inl v →
  api_put env "/profile" (formData data) = rejected err →
  calls (handleSubmit rEmail env data) w =
    setErrors_call w ∅
    ++ [ EvApiPut "/profile" (formData data);
         EvAlert "Erro na atualização"
           (Some "Ocorreu um erro ao atualizar o perfil. Tente novamente.") ]
  ∧ session_user (run (handleSubmit rEmail env data) w) = session_user w
  ∧ existsb is_updateUser (calls (handleSubmit rEmail env data) w) = false
  ∧ (EvGoBack ∉ calls (handleSubmit rEmail env data) w)
  ∧ formRef_current (run (handleSubmit rEmail env data) w)
      = (λ _, ∅) <$> formRef_current w.
Proof.
  intros Hv Hput.
  pose proof (handleSubmit_rejected rEmail env data v err w Hv Hput) as Hrun.
  assert (calls (handleSubmit rEmail env data) w =
            setErrors_call w ∅
            ++ [ EvApiPut "/profile" (formData data);
                 EvAlert "Erro na atualização"
                   (Some "Ocorreu um erro ao atualizar o perfil. Tente novamente.") ])
    as Hcalls.
  { by erewrite submit_calls; [|exact Hrun|reflexivity]. }
  rewrite Hcalls. unfold run. rewrite Hrun. cbn [snd session_user formRef_current].
  repeat split.
  - unfold setErrors_call. by destruct (formRef_current w).
  - unfold setErrors_call. intros Hin.
    destruct (formRef_current w); cbn in Hin;
      repeat (apply elem_of_cons in Hin as [Hin|Hin]; [discriminate|]);
      by apply elem_of_nil in Hin.
Qed.

Lemma C6_request_failure_witness :
  Yup.validate Examples.rEmail schema (to_object Examples.ana)
    {| Yup.abortEarly := false |} = inl (to_object Examples.ana)
  ∧ api_put Examples.env_offline "/profile" (formData Examples.ana)
      = rejected {| JSON_stringify := "{}" |}
  ∧ session_user (run (handleSubmit Examples.rEmail Examples.env_offline
                         Examples.ana) Examples.w0) = Examples.u0
  ∧ EvGoBack ∉ calls (handleSubmit Examples.rEmail Examples.env_offline
                        Examples.ana) Examples.w0.
Proof.
  assert (Yup.validate Examples.rEmail schema (to_object Examples.ana)
            {| Yup.abortEarly := false |} = inl (to_object Examples.ana)) as Hv
    by (vm_compute; reflexivity).
  assert (api_put Examples.env_offline "/profile" (formData Examples.ana)
          = rejected {| JSON_stringify := "{}" |}) as Hput by reflexivity.
  destruct (C6_request_failure Examples.rEmail Examples.env_offline
              Examples.w0 Examples.ana _ _ Hv Hput)
    as (_ & Huser & _ & Hback & _).
  split; [exact Hv|]. split; [exact Hput|]. split; [exact Huser|exact Hback].
Defined.

(** With valid name and email and no [old_password], the only error left
    is the one of the confirmation. *)
Lemma schema_errors_unchanged_password rEmail data :
  name data ≠ "" →
  email data ≠ "" →
  rEmail (email data) = true →
  old_password data = "" →
  schema ≫= Yup.validate_field rEmail (to_object data) =
    if bool_decide (password data = password_confirmation data) then []
    else [ {| Yup.path := "password_confirmation";
              Yup.message := "Confirmação incorreta" |} ].
Proof.
  intros Hname Hemail Hre Hold.
  rewrite schema_errors, name_errors, email_errors, old_password_errors,
    password_errors, password_confirmation_errors.
  rewrite (eqb_empty_false (name data)), (eqb_empty_false (email data)) by done.
  rewrite Hre, (eqb_empty_true (old_password data)) by done. reflexivity.
Qed.

(** C4, as the code has it.  With valid name and email and an empty
    [old_password], neither password field is required, but the
    confirmation still has to equal the password: validation passes exactly
    when the two are equal, and otherwise is rejected with the single error
    [Confirmação incorreta] on [password_confirmation]. *)
Theorem C4_confirmation_always_compared rEmail data :
  name data ≠ "" →
  email data ≠ "" →
  rEmail (email data) = true →
  old_password data = "" →
  (Yup.validate rEmail schema (to_object data) {| Yup.abortEarly := false |}
     = inl (to_object data)
   ↔ password_confirmation data = password data)
  ∧ (password_confirmation data ≠ password data →
     Yup.validate rEmail schema (to_object data) {| Yup.abortEarly := false |}
       = inr {| Yup.inner :=
                  [ {| Yup.path := "password_confirmation";
                       Yup.message := "Confirmação incorreta" |} ] |}).
Proof.
  intros Hname Hemail Hre Hold.
  pose proof (schema_errors_unchanged_password rEmail data Hname Hemail Hre Hold)
    as Herrs.
  split; [split|].
  - intros Hv%validate_inl. rewrite Hv in Herrs.
    destruct (decide (password data = password_confirmation data)) as [->|Hne];
      [done|]. by rewrite bool_decide_eq_false_2 in Herrs.
  - intros Heq. apply validate_passes. rewrite Herrs.
    by rewrite bool_decide_eq_true_2.
  - intros Hne. rewrite bool_decide_eq_false_2 in Herrs by done.
    rewrite validate_fails; by rewrite Herrs.
Qed.

Lemma C4_confirmation_always_compared_witness :
  name Examples.ana ≠ ""
  ∧ email Examples.ana ≠ ""
  ∧ Examples.rEmail (email Examples.ana) = true
  ∧ old_password Examples.ana = ""
  ∧ Yup.validate Examples.rEmail schema (to_object Examples.ana)
      {| Yup.abortEarly := false |} = inl (to_object Examples.ana).
Proof.
  assert (name Examples.ana ≠ "") as Hname by (vm_compute; discriminate).
  assert (email Examples.ana ≠ "") as Hemail by (vm_compute; discriminate).
  assert (Examples.rEmail (email Examples.ana) = true) as Hre by reflexivity.
  assert (old_password Examples.ana = "") as Hold by reflexivity.
  repeat (split; [assumption|]).
  apply (C4_confirmation_always_compared Examples.rEmail Examples.ana
           Hname Hemail Hre Hold). reflexivity.
Defined.

(** C4 as stated fails: name and email are valid, [old_password] and
    [password] are empty, and yet a non-empty [password_confirmation] is
    rejected. *)
Lemma C4_stray_confirmation_rejected :
  name Examples.ana_stray_confirmation ≠ ""
  ∧ email Examples.ana_stray_confirmation ≠ ""
  ∧ Examples.rEmail (email Examples.ana_stray_confirmation) = true
  ∧ old_password Examples.ana_stray_confirmation = ""
  ∧ password Examples.ana_stray_confirmation = ""
  ∧ Yup.validate Examples.rEmail schema
      (to_object Examples.ana_stray_confirmation) {| Yup.abortEarly := false |}
    = inr {| Yup.inner :=
               [ {| Yup.path := "password_confirmation";
                    Yup.message := "Confirmação incorreta" |} ] |}.
Proof.
  repeat split; try (vm_compute; discriminate); vm_compute; reflexivity.
Qed.

(** ** The avatar update *)

Lemma run_calls {E A} (m : M E A) (w w' : World) (r : A + E) (l : list Event) :
  m w = (r, w') → trace w' = trace w ++ l → calls m w = l.
Proof. intros Hrun Htr. apply calls_app. unfold run. by rewrite Hrun. Qed.

Lemma all_permission_calls_no_picker env :
  existsb is_showImagePicker (all_permission_calls env) = false.
Proof.
  unfold all_permission_calls, permission_calls.
  by repeat destruct (PermissionsAndroid_check env _).
Qed.

Lemma all_permission_calls_no_updateUser env :
  existsb is_updateUser (all_permission_calls env) = false.
Proof.
  unfold all_permission_calls, permission_calls.
  by repeat destruct (PermissionsAndroid_check env _).
Qed.

Lemma all_permission_calls_no_alert env :
  existsb is_alert (all_permission_calls env) = false.
Proof.
  unfold all_permission_calls, permission_calls.
  by repeat destruct (PermissionsAndroid_check env _).
Qed.

Lemma all_permission_calls_no_api_call env :
  existsb is_api_call (all_permission_calls env) = false.
Proof.
  unfold all_permission_calls, permission_calls.
  by repeat destruct (PermissionsAndroid_check env _).
Qed.

Section AvatarFlow.

Variable env : Env.

(** What the callback does, in one statement: the calls it adds and the
    session user it leaves. *)
Lemma avatarCallback_cases response w :
  ∃ l user,
    avatarCallback env response w =
      (inl (),
       {| session_user := user;
          formRef_current := formRef_current w;
          trace := trace w ++ l |})
    ∧ ((ImagePicker.didCancel response = true
        ∧ l = [] ∧ user = session_user w)
       ∨ (ImagePicker.didCancel response = false
          ∧ JS.truthy (ImagePicker.error response) = true
          ∧ l = [EvAlert "Erro ao atualizar seu avatar." None]
          ∧ user = session_user w)
       ∨ (ImagePicker.didCancel response = false
          ∧ JS.truthy (ImagePicker.error response) = false
          ∧ api_patch env "/users/avatar" (avatarData response) = resolved user
          ∧ l = [ EvApiPatch "/users/avatar" (avatarData response);
                  EvUpdateUser user ])
       ∨ (∃ err,
            ImagePicker.didCancel response = false
            ∧ JS.truthy (ImagePicker.error response) = false
            ∧ api_patch env "/users/avatar" (avatarData response) = rejected err
            ∧ l = [ EvApiPatch "/users/avatar" (avatarData response);
                    EvAlert "Erro ao atualizar o seu avatar"
                      (Some (JSON_stringify err)) ]
            ∧ user = session_user w)).
Proof.
  destruct (ImagePicker.didCancel response) eqn:Hc.
  { exists [], (session_user w). rewrite avatarCallback_cancel by done.
    split; [|by left]. destruct w; cbn. by rewrite app_nil_r. }
  destruct (JS.truthy (ImagePicker.error response)) eqn:He.
  { eexists _, (session_user w). rewrite avatarCallback_error by done.
    split; [reflexivity|]. right. by left. }
  destruct (api_patch env "/users/avatar" (avatarData response))
    as [user|err] eqn:Hp.
  - eexists _, user. erewrite avatarCallback_resolved by done.
    split; [reflexivity|]. right. right. by left.
  - eexists _, (session_user w). erewrite avatarCallback_rejected by done.
    split; [reflexivity|]. right. right. right. by exists err.
Qed.

(** The two ways the handler can go: a denial, after all three helpers
    have run, or the picker and its callback. *)
Lemma handleUpdateAvatar_cases w :
  (Platform_OS env = android
   ∧ permission_granted env CAMERA
     && permission_granted env READ_EXTERNAL_STORAGE
     && permission_granted env WRITE_EXTERNAL_STORAGE = false
   ∧ ∃ message,
       handleUpdateAvatar env w =
         (inl (),
          log w (all_permission_calls env
                 ++ [EvAlert "Permissão necessária" (Some message)]))
       ∧ message =
           if negb (permission_granted env CAMERA) then
             "Precisamos de permissão da sua camera para podermos tirar uma bela foto de perfil sua!"
           else if negb (permission_granted env READ_EXTERNAL_STORAGE) then
             "Precisamos de permissão para carregar seus arquivos de imagem!"
           else
             "Precisamos de permissão para salvar as fotos que você tirar!")
  ∨ (∃ pre,
       ((Platform_OS env ≠ android ∧ pre = [])
        ∨ (Platform_OS env = android
           ∧ permission_granted env CAMERA
             && permission_granted env READ_EXTERNAL_STORAGE
             && permission_granted env WRITE_EXTERNAL_STORAGE = true
           ∧ pre = all_permission_calls env))
       ∧ handleUpdateAvatar env w =
           avatarCallback env (ImagePicker_response env)
             (log w (pre ++ [EvShowImagePicker options]))).
Proof.
  destruct (decide (Platform_OS env = android)) as [Hos|Hos].
  - rewrite handleUpdateAvatar_android by done. cbv zeta.
    destruct (permission_granted env CAMERA) eqn:Hc; cbn [negb andb];
      [destruct (permission_granted env READ_EXTERNAL_STORAGE) eqn:Hr;
       cbn [negb andb];
       [destruct (permission_granted env WRITE_EXTERNAL_STORAGE) eqn:Hw;
        cbn [negb andb]|]|].
    + right. exists (all_permission_calls env). split; [by right|].
      by rewrite showImagePicker_run, log_log.
    + left. split; [done|]. split; [done|]. eexists. split; [|reflexivity].
      by rewrite log_log.
    + left. split; [done|]. split; [done|]. eexists. split; [|reflexivity].
      by rewrite log_log.
    + left. split; [done|]. split; [done|]. eexists. split; [|reflexivity].
      by rewrite log_log.
  - right. exists []. split; [by left|].
    by rewrite handleUpdateAvatar_other, showImagePicker_run.
Qed.

End AvatarFlow.

(** C1, as the code has it.  On Android, when some permission ends up
    refused, the handler stops with the alert of the first refused
    permission in the order camera, read-storage, write-storage, and never
    opens the picker; but by then it has run all three helpers: every
    permission has been checked, and requested exactly when its check found
    it missing, whatever the answers for the earlier ones were. *)
Theorem C1_denial_aborts_after_all_checks env w :
  Platform_OS env = android →
  permission_granted env CAMERA
  && permission_granted env READ_EXTERNAL_STORAGE
  && permission_granted env WRITE_EXTERNAL_STORAGE = false →
  ∃ message,
    calls (handleUpdateAvatar env) w =
      permission_calls env CAMERA
      ++ permission_calls env READ_EXTERNAL_STORAGE
      ++ permission_calls env WRITE_EXTERNAL_STORAGE
      ++ [EvAlert "Permissão necessária" (Some message)]
    ∧ message =
        (if negb (permission_granted env CAMERA) then
           "Precisamos de permissão da sua camera para podermos tirar uma bela foto de perfil sua!"
         else if negb (permission_granted env READ_EXTERNAL_STORAGE) then
           "Precisamos de permissão para carregar seus arquivos de imagem!"
         else
           "Precisamos de permissão para salvar as fotos que você tirar!")
    ∧ existsb is_showImagePicker (calls (handleUpdateAvatar env) w) = false
    ∧ (∀ p, EvPermCheck p ∈ calls (handleUpdateAvatar env) w)
    ∧ (∀ p, EvPermRequest p ∈ calls (handleUpdateAvatar env) w
            ↔ PermissionsAndroid_check env p = false).
Proof.
  intros Hos Hdenied.
  destruct (handleUpdateAvatar_cases env w)
    as [(_ & _ & message & Hrun & Hmsg)|(pre & [[Hne _]|(_ & Hok & _)] & _)];
    [|done|congruence].
  assert (calls (handleUpdateAvatar env) w =
            permission_calls env CAMERA
            ++ permission_calls env READ_EXTERNAL_STORAGE
            ++ permission_calls env WRITE_EXTERNAL_STORAGE
            ++ [EvAlert "Permissão necessária" (Some message)]) as Hcalls.
  { erewrite run_calls; [|exact Hrun|reflexivity].
    unfold all_permission_calls. by rewrite <- !app_assoc. }
  exists message. split; [done|]. split; [done|]. rewrite Hcalls.
  unfold permission_calls. split; [|split].
  - by repeat destruct (PermissionsAndroid_check env _).
  - intros p. rewrite !elem_of_app, !elem_of_cons. destruct p; auto.
  - intros p. rewrite !elem_of_app, !elem_of_cons.
    destruct p;
      destruct (PermissionsAndroid_check env CAMERA),
               (PermissionsAndroid_check env READ_EXTERNAL_STORAGE),
               (PermissionsAndroid_check env WRITE_EXTERNAL_STORAGE);
      rewrite ?elem_of_cons, ?elem_of_nil;
      (split; [intros Hin; destruct_or?; by simplify_eq | intros Hc]);
      first [discriminate Hc | auto 10].
Qed.

Lemma C1_denial_aborts_after_all_checks_witness :
  Platform_OS Examples.env_read_denied = android
  ∧ permission_granted Examples.env_read_denied CAMERA
    && permission_granted Examples.env_read_denied READ_EXTERNAL_STORAGE
    && permission_granted Examples.env_read_denied WRITE_EXTERNAL_STORAGE = false
  ∧ existsb is_showImagePicker
      (calls (handleUpdateAvatar Examples.env_read_denied) Examples.w0) = false
  ∧ EvPermCheck WRITE_EXTERNAL_STORAGE
      ∈ calls (handleUpdateAvatar Examples.env_read_denied) Examples.w0.
Proof.
  assert (Platform_OS Examples.env_read_denied = android) as Hos by reflexivity.
  assert (permission_granted Examples.env_read_denied CAMERA
          && permission_granted Examples.env_read_denied READ_EXTERNAL_STORAGE
          && permission_granted Examples.env_read_denied WRITE_EXTERNAL_STORAGE
          = false) as Hdenied by reflexivity.
  destruct (C1_denial_aborts_after_all_checks Examples.env_read_denied
              Examples.w0 Hos Hdenied) as (message & _ & _ & Hpick & Hcheck & _).
  split; [exact Hos|]. split; [exact Hdenied|]. split; [exact Hpick|].
  apply Hcheck.
Defined.

(** C1 as stated fails: the camera permission is held and read access to
    the storage is refused, and the handler still checks and requests write
    access before it shows the alert for read access. *)
Lemma C1_write_storage_still_checked :
  Platform_OS Examples.env_read_denied = android
  ∧ permission_granted Examples.env_read_denied CAMERA = true
  ∧ permission_granted Examples.env_read_denied READ_EXTERNAL_STORAGE = false
  ∧ calls (handleUpdateAvatar Examples.env_read_denied) Examples.w0 =
      [ EvPermCheck CAMERA;
        EvPermCheck READ_EXTERNAL_STORAGE;
        EvPermRequest READ_EXTERNAL_STORAGE;
        EvPermCheck WRITE_EXTERNAL_STORAGE;
        EvPermRequest WRITE_EXTERNAL_STORAGE;
        EvAlert "Permissão necessária"
          (Some "Precisamos de permissão para carregar seus arquivos de imagem!") ]
  ∧ EvPermCheck WRITE_EXTERNAL_STORAGE
      ∈ calls (handleUpdateAvatar Examples.env_read_denied) Examples.w0
  ∧ EvPermRequest WRITE_EXTERNAL_STORAGE
      ∈ calls (handleUpdateAvatar Examples.env_read_denied) Examples.w0.
Proof.
  assert (calls (handleUpdateAvatar Examples.env_read_denied) Examples.w0 =
      [ EvPermCheck CAMERA;
        EvPermCheck READ_EXTERNAL_STORAGE;
        EvPermRequest READ_EXTERNAL_STORAGE;
        EvPermCheck WRITE_EXTERNAL_STORAGE;
        EvPermRequest WRITE_EXTERNAL_STORAGE;
        EvAlert "Permissão necessária"
          (Some "Precisamos de permissão para carregar seus arquivos de imagem!") ])
    as Hcalls by (vm_compute; reflexivity).
  repeat split; try reflexivity; try exact Hcalls; rewrite Hcalls;
    rewrite !elem_of_cons; auto 10.
Qed.

(** C8. Off Android the handler makes no call to the permission provider:
    its first call is the one that opens the picker. *)
Theorem C8_no_permissions_off_android env w :
  Platform_OS env ≠ android →
  (∃ rest, calls (handleUpdateAvatar env) w = EvShowImagePicker options :: rest)
  ∧ existsb is_permission_call (calls (handleUpdateAvatar env) w) = false.
Proof.
  intros Hos.
  destruct (handleUpdateAvatar_cases env w)
    as [(Hand & _)|(pre & [[_ ->]|(Hand & _)] & Hrun)]; [done| |done].
  destruct (avatarCallback_cases env (ImagePicker_response env)
              (log w ([] ++ [EvShowImagePicker options])))
    as (l & user & Hcb & Hl).
  rewrite Hcb in Hrun. cbn [log trace app] in Hrun.
  assert (calls (handleUpdateAvatar env) w = EvShowImagePicker options :: l)
    as Hcalls.
  { erewrite run_calls; [|exact Hrun|]; [reflexivity|].
    cbn. by rewrite <- app_assoc. }
  rewrite Hcalls. split; [by exists l|].
  destruct Hl as [(_ & -> & _)|[(_ & _ & -> & _)|[(_ & _ & _ & ->)
                 |(err & _ & _ & _ & -> & _)]]]; reflexivity.
Qed.

Lemma C8_no_permissions_off_android_witness :
  Platform_OS Examples.env_ios ≠ android
  ∧ existsb is_permission_call
      (calls (handleUpdateAvatar Examples.env_ios) Examples.w0) = false.
Proof.
  assert (Platform_OS Examples.env_ios ≠ android) as Hos
    by (vm_compute; discriminate).
  split; [exact Hos|].
  apply (C8_no_permissions_off_android Examples.env_ios Examples.w0 Hos).
Defined.

(** C9. When the picker has been opened and reports a cancellation, the
    handler ends there: the call that opened the picker is its last call,
    no alert has been shown, no call has gone to the API and the session
    user is the one from before. *)
Theorem C9_cancel_is_silent env w :
  existsb is_showImagePicker (calls (handleUpdateAvatar env) w) = true →
  ImagePicker.didCancel (ImagePicker_response env) = true →
  existsb is_alert (calls (handleUpdateAvatar env) w) = false
  ∧ existsb is_api_call (calls (handleUpdateAvatar env) w) = false
  ∧ last (calls (handleUpdateAvatar env) w) = Some (EvShowImagePicker options)
  ∧ session_user (run (handleUpdateAvatar env) w) = session_user w
  ∧ ∀ w', avatarCallback env (ImagePicker_response env) w' = (inl (), w').
Proof.
  intros Hopen Hcancel.
  destruct (handleUpdateAvatar_cases env w)
    as [(_ & _ & message & Hrun & _)|(pre & Hpre & Hrun)].
  { erewrite run_calls in Hopen; [|exact Hrun|reflexivity].
    rewrite existsb_app, all_permission_calls_no_picker in Hopen. done. }
  rewrite avatarCallback_cancel in Hrun by done.
  assert (calls (handleUpdateAvatar env) w = pre ++ [EvShowImagePicker options])
    as Hcalls by (by erewrite run_calls; [|exact Hrun|reflexivity]).
  assert (existsb is_alert pre = false ∧ existsb is_api_call pre = false)
    as [Halert Hapi].
  { destruct Hpre as [[_ ->]|(_ & _ & ->)]; [done|].
    by rewrite all_permission_calls_no_alert, all_permission_calls_no_api_call. }
  rewrite Hcalls, !existsb_app, Halert, Hapi, last_snoc.
  unfold run. rewrite Hrun.
  repeat split. intros w'. by apply avatarCallback_cancel.
Qed.

Lemma C9_cancel_is_silent_witness :
  existsb is_showImagePicker
    (calls (handleUpdateAvatar Examples.env_ios_cancel) Examples.w0) = true
  ∧ ImagePicker.didCancel (ImagePicker_response Examples.env_ios_cancel) = true
  ∧ existsb is_alert
      (calls (handleUpdateAvatar Examples.env_ios_cancel) Examples.w0) = false
  ∧ existsb is_api_call
      (calls (handleUpdateAvatar Examples.env_ios_cancel) Examples.w0) = false.
Proof.
  assert (existsb is_showImagePicker
            (calls (handleUpdateAvatar Examples.env_ios_cancel) Examples.w0)
          = true) as Hopen by (vm_compute; reflexivity).
  assert (ImagePicker.didCancel (ImagePicker_response Examples.env_ios_cancel)
          = true) as Hcancel by reflexivity.
  destruct (C9_cancel_is_silent Examples.env_ios_cancel Examples.w0
              Hopen Hcancel) as (Halert & Hapi & _).
  split; [exact Hopen|]. split; [exact Hcancel|].
  split; [exact Halert|exact Hapi].
Defined.

(** C10. Whenever the avatar update does not end in a successful upload (a
    permission is refused on Android, the picker is cancelled or reports an
    error, or the patch on [/users/avatar] is rejected) the handler never
    calls [updateUser], and the session user is the one from before. *)
Theorem C10_user_kept_unless_uploaded env w :
  (Platform_OS env = android ∧ ∃ p, permission_granted env p = false)
  ∨ ImagePicker.didCancel (ImagePicker_response env) = true
  ∨ JS.truthy (ImagePicker.error (ImagePicker_response env)) = true
  ∨ (∃ err, api_patch env "/users/avatar"
              (avatarData (ImagePicker_response env)) = rejected err) →
  existsb is_updateUser (calls (handleUpdateAvatar env) w) = false
  ∧ session_user (run (handleUpdateAvatar env) w) = session_user w.
Proof.
  intros Hfail.
  destruct (handleUpdateAvatar_cases env w)
    as [(_ & _ & message & Hrun & _)|(pre & Hpre & Hrun)].
  { erewrite run_calls; [|exact Hrun|reflexivity]. unfold run. rewrite Hrun.
    by rewrite existsb_app, all_permission_calls_no_updateUser. }
  destruct (avatarCallback_cases env (ImagePicker_response env)
              (log w (pre ++ [EvShowImagePicker options])))
    as (l & user & Hcb & Hl).
  rewrite Hcb in Hrun. cbn [log trace session_user formRef_current] in Hrun.
  assert (existsb is_updateUser pre = false) as Hpre_ok.
  { destruct Hpre as [[_ ->]|(_ & _ & ->)]; [done|].
    by rewrite all_permission_calls_no_updateUser. }
  assert (existsb is_updateUser l = false ∧ user = session_user w) as [Hl_ok ->].
  { destruct Hl as [(_ & -> & ->)|[(_ & _ & -> & ->)|[(Hc & He & Hp & ->)
                   |(err & _ & _ & _ & -> & ->)]]]; try done.
    exfalso.
    destruct Hfail as [(Hos & p & Hp')|[Hc'|[He'|(err & Hp')]]]; try congruence.
    destruct Hpre as [[Hne _]|(_ & Hall & _)]; [done|].
    apply andb_true_iff in Hall as [[Hcam Hread]%andb_true_iff Hwrite].
    destruct p; congruence. }
  erewrite run_calls; [|exact Hrun|by rewrite <- app_assoc].
  unfold run. rewrite Hrun.
  by rewrite !existsb_app, Hpre_ok, Hl_ok.
Qed.

Lemma C10_user_kept_unless_uploaded_witness :
  (∃ err, api_patch Examples.env_offline "/users/avatar"
            (avatarData (ImagePicker_response Examples.env_offline))
          = rejected err)
  ∧ existsb is_updateUser
      (calls (handleUpdateAvatar Examples.env_offline) Examples.w0) = false
  ∧ session_user (run (handleUpdateAvatar Examples.env_offline) Examples.w0)
      = Examples.u0.
Proof.
  assert (∃ err, api_patch Examples.env_offline "/users/avatar"
                   (avatarData (ImagePicker_response Examples.env_offline))
                 = rejected err) as Hrej by (eexists; reflexivity).
  split; [exact Hrej|].
  apply (C10_user_kept_unless_uploaded Examples.env_offline Examples.w0).
  right. right. right. exact Hrej.
Defined.

(** The other direction: when nothing stands in the way, the record the
    API answers with becomes the session user. *)
Lemma handleUpdateAvatar_uploaded env w user :
  Platform_OS env ≠ android
  ∨ permission_granted env CAMERA
    && permission_granted env READ_EXTERNAL_STORAGE
    && permission_granted env WRITE_EXTERNAL_STORAGE = true →
  ImagePicker.didCancel (ImagePicker_response env) = false →
  JS.truthy (ImagePicker.error (ImagePicker_response env)) = false →
  api_patch env "/users/avatar" (avatarData (ImagePicker_response env))
    = resolved user →
  session_user (run (handleUpdateAvatar env) w) = user.
Proof.
  intros Hperm Hc He Hp.
  destruct (handleUpdateAvatar_cases env w)
    as [(Hos & Hden & _)|(pre & _ & Hrun)].
  { destruct Hperm; congruence. }
  unfold run. rewrite Hrun.
  by erewrite avatarCallback_resolved.
Qed.

(** * Further properties of the screen *)

(** ** The schema *)

Lemma validate_inl_eq rEmail data v :
  Yup.validate rEmail schema (to_object data) {| Yup.abortEarly := false |}
    = inl v →
  v = to_object data.
Proof.
  unfold Yup.validate. cbv zeta.
  destruct (schema ≫= Yup.validate_field rEmail (to_object data));
    [by intros [= <-]|done].
Qed.

(** What an accepted form is known to satisfy. *)
Lemma validate_inl_fields rEmail data :
  Yup.validate rEmail schema (to_object data) {| Yup.abortEarly := false |}
    = inl (to_object data) →
  name data ≠ ""
  ∧ email data ≠ ""
  ∧ rEmail (email data) = true
  ∧ password data = password_confirmation data
  ∧ (old_password data ≠ "" → password data ≠ "").
Proof.
  pose proof (schema_errors rEmail data) as Herrs.
  rewrite name_errors, email_errors, old_password_errors, password_errors,
    password_confirmation_errors in Herrs.
  intros Hv%validate_inl. rewrite Hv in Herrs.
  destruct (String.eqb_spec (name data) ""); [done|].
  destruct (String.eqb_spec (email data) ""); [done|].
  destruct (rEmail (email data)); [|done].
  destruct (decide (password data = password_confirmation data)) as [Heq|Hne].
  - repeat (split; [done|]). intros Hold.
    rewrite (eqb_empty_false _ Hold) in Herrs.
    by destruct (String.eqb_spec (password data) "").
  - rewrite (bool_decide_eq_false_2 _ Hne) in Herrs.
    destruct (String.eqb (old_password data) ""); [done|].
    by destruct (String.eqb (password data) "").
Qed.

(** What is enough for a form to be accepted. *)
Lemma fields_validate rEmail data :
  name data ≠ "" →
  email data ≠ "" →
  rEmail (email data) = true →
  password data = password_confirmation data →
  (old_password data ≠ "" → password data ≠ "") →
  Yup.validate rEmail schema (to_object data) {| Yup.abortEarly := false |}
    = inl (to_object data).
Proof.
  intros Hname Hemail Hre Heq Hpw. apply validate_passes.
  rewrite schema_errors, name_errors, email_errors, old_password_errors,
    password_errors, password_confirmation_errors.
  rewrite (eqb_empty_false _ Hname), (eqb_empty_false _ Hemail), Hre.
  rewrite (bool_decide_eq_true_2 _ Heq).
  destruct (String.eqb_spec (old_password data) "") as [|Hold]; [done|].
  rewrite (eqb_empty_false _ (Hpw Hold)). rewrite <- Heq.
  by rewrite (eqb_empty_false _ (Hpw Hold)).
Qed.

(** X1. The schema accepts a form exactly when the name is not empty, the
    email is not empty and matches the email pattern, the confirmation
    equals the password, and the password is not empty whenever the current
    password is given. *)
Theorem validate_passes_iff rEmail data :
  Yup.validate rEmail schema (to_object data) {| Yup.abortEarly := false |}
    = inl (to_object data)
  ↔ name data ≠ ""
    ∧ email data ≠ ""
    ∧ rEmail (email data) = true
    ∧ password data = password_confirmation data
    ∧ (old_password data ≠ "" → password data ≠ "").
Proof.
  split.
  - apply validate_inl_fields.
  - intros (Hname & Hemail & Hre & Heq & Hpw). by apply fields_validate.
Qed.

(** ** The error map *)

Lemma getValidationErrors_lookup_None l key :
  key ∉ Yup.path <$> l →
  getValidationErrors {| Yup.inner := l |} !! key = None.
Proof.
  induction l as [|e l IH] using rev_ind; [done|].
  rewrite fmap_app, not_elem_of_app. intros [Hl He].
  rewrite getValidationErrors_snoc, lookup_insert_ne; [by apply IH|].
  intros Heq. apply He. rewrite <- Heq. cbn. by left.
Qed.

Lemma getValidationErrors_size l :
  NoDup (Yup.path <$> l) →
  size (getValidationErrors {| Yup.inner := l |}) = length l.
Proof.
  induction l as [|e l IH] using rev_ind; [done|].
  rewrite fmap_app, NoDup_app. intros (Hl & Hsep & _).
  rewrite getValidationErrors_snoc, map_size_insert_None.
  - rewrite IH by done. rewrite length_app. cbn. lia.
  - apply getValidationErrors_lookup_None. intros Hin.
    apply (Hsep _ Hin). cbn. by left.
Qed.

Lemma getValidationErrors_lookup_Some l e :
  NoDup (Yup.path <$> l) →
  e ∈ l →
  getValidationErrors {| Yup.inner := l |} !! Yup.path e = Some (Yup.message e).
Proof.
  intros Hnd Hin.
  destruct (getValidationErrors_lookup l (Yup.path e)) as (m & Hm & Hmin);
    [by eauto|].
  rewrite Hm. f_equal.
  apply list_elem_of_lookup in Hin as [i Hi].
  apply list_elem_of_lookup in Hmin as [j Hj].
  assert (i = j) as ->.
  { eapply NoDup_lookup; [exact Hnd| |].
    - rewrite list_lookup_fmap, Hi. reflexivity.
    - rewrite list_lookup_fmap, Hj. reflexivity. }
  rewrite Hi in Hj. by injection Hj as ->.
Qed.

(** The schema reports at most one error for a field. *)
Lemma schema_errors_NoDup rEmail data :
  NoDup (Yup.path <$> (schema ≫= Yup.validate_field rEmail (to_object data))).
Proof.
  rewrite schema_errors, name_errors, email_errors, old_password_errors,
    password_errors, password_confirmation_errors.
  destruct (String.eqb (name data) ""), (String.eqb (email data) ""),
    (rEmail (email data)), (String.eqb (old_password data) ""),
    (String.eqb (password data) ""),
    (bool_decide (password data = password_confirmation data)),
    (String.eqb (password_confirmation data) "");
    cbn; apply (bool_decide_unpack _); vm_compute; exact I.
Qed.

(** One error of the schema, rule by rule. *)
Lemma name_rule rEmail data :
  name data = "" →
  {| Yup.path := "name"; Yup.message := "Nome obrigatório" |}
    ∈ schema ≫= Yup.validate_field rEmail (to_object data).
Proof.
  intros H. rewrite schema_errors, name_errors, (eqb_empty_true _ H).
  apply elem_of_app. left. by left.
Qed.

Lemma email_required_rule rEmail data :
  email data = "" →
  {| Yup.path := "email"; Yup.message := "E-mail obrigatório" |}
    ∈ schema ≫= Yup.validate_field rEmail (to_object data).
Proof.
  intros H. rewrite schema_errors, email_errors, (eqb_empty_true _ H).
  rewrite !elem_of_app. right. left. by left.
Qed.

Lemma email_format_rule rEmail data :
  email data ≠ "" →
  rEmail (email data) = false →
  {| Yup.path := "email"; Yup.message := "Digite um e-mail válido" |}
    ∈ schema ≫= Yup.validate_field rEmail (to_object data).
Proof.
  intros H Hre. rewrite schema_errors, email_errors, (eqb_empty_false _ H), Hre.
  rewrite !elem_of_app. right. left. by left.
Qed.

Lemma password_required_rule rEmail data :
  old_password data ≠ "" →
  password data = "" →
  {| Yup.path := "password"; Yup.message := "Campo obrigatório" |}
    ∈ schema ≫= Yup.validate_field rEmail (to_object data).
Proof.
  intros Hold H.
  rewrite schema_errors, password_errors, (eqb_empty_false _ Hold),
    (eqb_empty_true _ H).
  rewrite !elem_of_app. right. right. right. left. by left.
Qed.

Lemma confirmation_mismatch_rule rEmail data :
  password data ≠ password_confirmation data →
  {| Yup.path := "password_confirmation";
     Yup.message := "Confirmação incorreta" |}
    ∈ schema ≫= Yup.validate_field rEmail (to_object data).
Proof.
  intros H.
  rewrite schema_errors, password_confirmation_errors,
    (bool_decide_eq_false_2 _ H).
  rewrite !elem_of_app. right. right. right. right. by left.
Qed.

Lemma confirmation_required_rule rEmail data :
  old_password data ≠ "" →
  password_confirmation data = "" →
  password data = "" →
  {| Yup.path := "password_confirmation"; Yup.message := "Campo obrigatório" |}
    ∈ schema ≫= Yup.validate_field rEmail (to_object data).
Proof.
  intros Hold H Hpw.
  rewrite schema_errors, password_confirmation_errors,
    (eqb_empty_false _ Hold), (eqb_empty_true _ H).
  rewrite bool_decide_eq_true_2 by congruence.
  rewrite !elem_of_app. right. right. right. right. by left.
Qed.

(** C7. Validation runs without [abortEarly], so a form that breaks
    several rules gets a message for each of them in one pass.  Whenever
    some rule is broken validation is rejected, and the one rejection
    carries, and the form gets under the field's name: [Nome obrigatório]
    on [name] for an empty name; [E-mail obrigatório] on [email] for an
    empty email and [Digite um e-mail válido] for a malformed one;
    [Campo obrigatório] on [password] for an empty password with a current
    password given; [Confirmação incorreta] on [password_confirmation] when
    it differs from the password, and [Campo obrigatório] when both are
    empty with a current password given.  In particular an empty name is
    reported whatever the other fields hold. *)
Theorem C7_all_errors_collected rEmail env w data :
  name data = ""
  ∨ email data = ""
  ∨ rEmail (email data) = false
  ∨ (old_password data ≠ "" ∧ password data = "")
  ∨ (old_password data ≠ "" ∧ password_confirmation data = "")
  ∨ password data ≠ password_confirmation data →
  ∃ err,
    Yup.validate rEmail schema (to_object data) {| Yup.abortEarly := false |}
      = inr err
    ∧ formRef_current (run (handleSubmit rEmail env data) w)
        = (λ _, getValidationErrors err) <$> formRef_current w
    ∧ (name data = "" →
       {| Yup.path := "name"; Yup.message := "Nome obrigatório" |}
         ∈ Yup.inner err
       ∧ getValidationErrors err !! "name" = Some "Nome obrigatório")
    ∧ (email data = "" →
       {| Yup.path := "email"; Yup.message := "E-mail obrigatório" |}
         ∈ Yup.inner err
       ∧ getValidationErrors err !! "email" = Some "E-mail obrigatório")
    ∧ (email data ≠ "" → rEmail (email data) = false →
       {| Yup.path := "email"; Yup.message := "Digite um e-mail válido" |}
         ∈ Yup.inner err
       ∧ getValidationErrors err !! "email" = Some "Digite um e-mail válido")
    ∧ (old_password data ≠ "" → password data = "" →
       {| Yup.path := "password"; Yup.message := "Campo obrigatório" |}
         ∈ Yup.inner err
       ∧ getValidationErrors err !! "password" = Some "Campo obrigatório")
    ∧ (password data ≠ password_confirmation data →
       {| Yup.path := "password_confirmation";
          Yup.message := "Confirmação incorreta" |} ∈ Yup.inner err
       ∧ getValidationErrors err !! "password_confirmation"
           = Some "Confirmação incorreta")
    ∧ (old_password data ≠ "" → password_confirmation data = "" →
       password data = "" →
       {| Yup.path := "password_confirmation";
          Yup.message := "Campo obrigatório" |} ∈ Yup.inner err
       ∧ getValidationErrors err !! "password_confirmation"
           = Some "Campo obrigatório").
Proof.
  intros Hbroken.
  set (errors := schema ≫= Yup.validate_field rEmail (to_object data)).
  assert (∃ e, e ∈ errors) as [e0 He0].
  { destruct Hbroken as [H|[H|[H|[[Hold H]|[[Hold H]|H]]]]].
    - eexists. by apply name_rule.
    - eexists. by apply email_required_rule.
    - destruct (decide (email data = "")).
      + eexists. by apply email_required_rule.
      + eexists. by apply email_format_rule.
    - eexists. by apply password_required_rule.
    - destruct (decide (password data = password_confirmation data)) as [Heq|].
      + eexists. apply confirmation_required_rule; congruence.
      + eexists. by apply confirmation_mismatch_rule.
    - eexists. by apply confirmation_mismatch_rule. }
  assert (errors ≠ []) as Hne.
  { intros Hnil. rewrite Hnil in He0. by apply elem_of_nil in He0. }
  pose proof (validate_fails rEmail data Hne) as Hv. fold errors in Hv.
  assert (∀ e, e ∈ errors →
            e ∈ Yup.inner {| Yup.inner := errors |}
            ∧ getValidationErrors {| Yup.inner := errors |} !! Yup.path e
                = Some (Yup.message e)) as Hrep.
  { intros e He. split; [done|].
    apply getValidationErrors_lookup_Some; [|done].
    apply schema_errors_NoDup. }
  exists {| Yup.inner := errors |}. split; [done|]. split.
  { unfold run. by rewrite (handleSubmit_invalid rEmail env data _ w Hv). }
  repeat split; intros.
  all: first
    [ by apply (Hrep {| Yup.path := "name"; Yup.message := "Nome obrigatório" |}),
         name_rule
    | by apply (Hrep {| Yup.path := "email"; Yup.message := "E-mail obrigatório" |}),
         email_required_rule
    | by apply (Hrep {| Yup.path := "email";
                        Yup.message := "Digite um e-mail válido" |}),
         email_format_rule
    | by apply (Hrep {| Yup.path := "password";
                        Yup.message := "Campo obrigatório" |}),
         password_required_rule
    | by apply (Hrep {| Yup.path := "password_confirmation";
                        Yup.message := "Confirmação incorreta" |}),
         confirmation_mismatch_rule
    | by apply (Hrep {| Yup.path := "password_confirmation";
                        Yup.message := "Campo obrigatório" |}),
         confirmation_required_rule ].
Qed.

Lemma C7_all_errors_collected_witness :
  name Examples.blank = ""
  ∧ (∃ err,
       Yup.validate Examples.rEmail schema (to_object Examples.blank)
         {| Yup.abortEarly := false |} = inr err
       ∧ getValidationErrors err !! "name" = Some "Nome obrigatório"
       ∧ getValidationErrors err !! "email" = Some "Digite um e-mail válido"
       ∧ getValidationErrors err !! "password" = Some "Campo obrigatório"
       ∧ getValidationErrors err !! "password_confirmation"
           = Some "Campo obrigatório")
  ∧ name Samples.nameless_mismatch = ""
  ∧ (∃ err,
       Yup.validate Examples.rEmail schema (to_object Samples.nameless_mismatch)
         {| Yup.abortEarly := false |} = inr err
       ∧ getValidationErrors err !! "name" = Some "Nome obrigatório"
       ∧ getValidationErrors err !! "password_confirmation"
           = Some "Confirmação incorreta").
Proof.
  assert (name Examples.blank = "") as Hblank by reflexivity.
  assert (name Samples.nameless_mismatch = "") as Hnameless by reflexivity.
  split; [exact Hblank|]. split; [|split; [exact Hnameless|]].
  - destruct (C7_all_errors_collected Examples.rEmail Examples.env_ios
                Examples.w0 Examples.blank (or_introl Hblank))
      as (err & Hv & _ & Hname & _ & Hformat & Hpw & _ & Hconf).
    exists err. split; [exact Hv|]. split; [apply Hname; reflexivity|].
    split; [apply Hformat; [vm_compute; discriminate|reflexivity]|].
    split; [apply Hpw; [vm_compute; discriminate|reflexivity]|].
    apply Hconf; [vm_compute; discriminate|reflexivity|reflexivity].
  - destruct (C7_all_errors_collected Examples.rEmail Examples.env_ios
                Examples.w0 Samples.nameless_mismatch (or_introl Hnameless))
      as (err & Hv & _ & Hname & _ & _ & _ & Hmis & _).
    exists err. split; [exact Hv|]. split; [apply Hname; reflexivity|].
    apply Hmis. vm_compute. discriminate.
Defined.

(** X2. A rejection carries at most one error for each field and none for
    [old_password], so the map handed to the form loses none of them: it
    has as many entries as there are errors, none under [old_password], and
    every error is found under its path with its message. *)
Theorem error_map_keeps_every_error rEmail data err :
  Yup.validate rEmail schema (to_object data) {| Yup.abortEarly := false |}
    = inr err →
  NoDup (Yup.path <$> Yup.inner err)
  ∧ 0 < length (Yup.inner err) ≤ 4
  ∧ size (getValidationErrors err) = length (Yup.inner err)
  ∧ (∀ e, e ∈ Yup.inner err →
          getValidationErrors err !! Yup.path e = Some (Yup.message e))
  ∧ (∀ e, e ∈ Yup.inner err → Yup.path e ≠ "old_password")
  ∧ getValidationErrors err !! "old_password" = None.
Proof.
  intros Hv. pose proof (validate_inr rEmail data err Hv) as Hin.
  pose proof (schema_errors_NoDup rEmail data) as Hnd. rewrite <- Hin in Hnd.
  assert (∀ e, e ∈ Yup.inner err → Yup.path e ≠ "old_password") as Hold.
  { intros e. rewrite Hin, schema_errors, old_password_errors, !elem_of_app.
    intros [He|[He|[He|[He|He]]]];
      try (apply validate_field_path in He; by rewrite He).
    by apply elem_of_nil in He. }
  destruct err as [l]. cbn [Yup.inner] in *.
  split; [done|]. split; [|split; [|split; [|split; [done|]]]]; cycle 3.
  { apply getValidationErrors_lookup_None.
    intros (e & Hp & He)%list_elem_of_fmap. by apply (Hold e). }
  - split.
    + unfold Yup.validate in Hv. cbv zeta in Hv. rewrite <- Hin in Hv.
      destruct l; [done|]. cbn. lia.
    + rewrite Hin, schema_errors, name_errors, email_errors,
        old_password_errors, password_errors, password_confirmation_errors.
      destruct (String.eqb (name data) ""), (String.eqb (email data) ""),
        (rEmail (email data)), (String.eqb (old_password data) ""),
        (String.eqb (password data) ""),
        (bool_decide (password data = password_confirmation data)),
        (String.eqb (password_confirmation data) ""); cbn; lia.
  - by apply getValidationErrors_size.
  - intros e He. by apply getValidationErrors_lookup_Some.
Qed.

Lemma error_map_keeps_every_error_witness :
  ∃ err,
    Yup.validate Examples.rEmail schema (to_object Examples.blank)
      {| Yup.abortEarly := false |} = inr err
    ∧ size (getValidationErrors err) = length (Yup.inner err)
    ∧ length (Yup.inner err) = 4.
Proof.
  destruct (Yup.validate Examples.rEmail schema (to_object Examples.blank)
              {| Yup.abortEarly := false |}) as [v|err] eqn:Hv;
    [vm_compute in Hv; discriminate|].
  exists err. split; [reflexivity|].
  destruct (error_map_keeps_every_error Examples.rEmail Examples.blank err Hv)
    as (_ & _ & Hsize & _).
  split; [exact Hsize|].
  apply validate_inr in Hv. rewrite Hv. vm_compute. reflexivity.
Defined.

(** ** The submission *)

(** The three ways a submission can go, with the world each leaves. *)
Lemma handleSubmit_cases rEmail env data w :
  (∃ err,
     Yup.validate rEmail schema (to_object data) {| Yup.abortEarly := false |}
       = inr err
     ∧ handleSubmit rEmail env data w =
         (inl (),
          {| session_user := session_user w;
             formRef_current :=
               (λ _, getValidationErrors err) <$> formRef_current w;
             trace := trace w ++ setErrors_call w ∅
                      ++ setErrors_call w (getValidationErrors err) |}))
  ∨ (∃ user,
       Yup.validate rEmail schema (to_object data) {| Yup.abortEarly := false |}
         = inl (to_object data)
       ∧ api_put env "/profile" (formData data) = resolved user
       ∧ handleSubmit rEmail env data w =
           (inl (),
            {| session_user := user;
               formRef_current := (λ _, ∅) <$> formRef_current w;
               trace := trace w ++ setErrors_call w ∅
                        ++ [ EvApiPut "/profile" (formData data);
                             EvUpdateUser user;
                             EvAlert "Perfil atualizado!"
                               (Some "Suas informações do perfil foram atualizadas com sucesso!");
                             EvGoBack ] |}))
  ∨ (∃ err,
       Yup.validate rEmail schema (to_object data) {| Yup.abortEarly := false |}
         = inl (to_object data)
       ∧ api_put env "/profile" (formData data) = rejected err
       ∧ handleSubmit rEmail env data w =
           (inl (),
            {| session_user := session_user w;
               formRef_current := (λ _, ∅) <$> formRef_current w;
               trace := trace w ++ setErrors_call w ∅
                        ++ [ EvApiPut "/profile" (formData data);
                             EvAlert "Erro na atualização"
                               (Some "Ocorreu um erro ao atualizar o perfil. Tente novamente.") ] |})).
Proof.
  destruct (Yup.validate rEmail schema (to_object data)
              {| Yup.abortEarly := false |}) as [v|err] eqn:Hv.
  - pose proof (validate_inl_eq _ _ _ Hv) as ->.
    destruct (api_put env "/profile" (formData data)) as [user|err] eqn:Hput.
    + right. left. exists user. repeat (split; [done|]).
      apply (handleSubmit_resolved _ _ _ _ _ _ Hv Hput).
    + right. right. exists err. repeat (split; [done|]).
      apply (handleSubmit_rejected _ _ _ _ _ _ Hv Hput).
  - left. exists err. split; [done|]. by apply handleSubmit_invalid.
Qed.

Lemma getValidationErrors_nonempty rEmail data err :
  Yup.validate rEmail schema (to_object data) {| Yup.abortEarly := false |}
    = inr err →
  getValidationErrors err ≠ ∅.
Proof.
  intros Hv Hempty.
  pose proof (validate_inr rEmail data err Hv) as Hin.
  pose proof (schema_errors_NoDup rEmail data) as Hnd. rewrite <- Hin in Hnd.
  unfold Yup.validate in Hv. cbv zeta in Hv. rewrite <- Hin in Hv.
  destruct err as [l]. cbn [Yup.inner] in *.
  pose proof (getValidationErrors_size l Hnd) as Hsize.
  rewrite Hempty, map_size_empty in Hsize. by destruct l.
Qed.

(** X3. Whatever the schema rejects, the handler stops there: it hands the
    error map to the form and does nothing else; no call to the API, no
    alert, no [updateUser], no [goBack], and the session user is the one
    from before. *)
Theorem validation_failure_stops_submission rEmail env w data err :
  Yup.validate rEmail schema (to_object data) {| Yup.abortEarly := false |}
    = inr err →
  calls (handleSubmit rEmail env data) w =
    setErrors_call w ∅ ++ setErrors_call w (getValidationErrors err)
  ∧ formRef_current (run (handleSubmit rEmail env data) w)
      = (λ _, getValidationErrors err) <$> formRef_current w
  ∧ session_user (run (handleSubmit rEmail env data) w) = session_user w
  ∧ existsb is_api_call (calls (handleSubmit rEmail env data) w) = false
  ∧ existsb is_alert (calls (handleSubmit rEmail env data) w) = false
  ∧ existsb is_updateUser (calls (handleSubmit rEmail env data) w) = false
  ∧ (EvGoBack ∉ calls (handleSubmit rEmail env data) w).
Proof.
  intros Hv. pose proof (handleSubmit_invalid rEmail env data err w Hv) as Hrun.
  assert (calls (handleSubmit rEmail env data) w =
            setErrors_call w ∅ ++ setErrors_call w (getValidationErrors err))
    as Hcalls.
  { by erewrite submit_calls; [|exact Hrun|reflexivity]. }
  rewrite Hcalls. unfold run. rewrite Hrun. cbn [snd session_user formRef_current].
  unfold setErrors_call. destruct (formRef_current w); cbn; repeat split;
    intros Hin;
    repeat (apply elem_of_cons in Hin as [Hin|Hin]; [discriminate|]);
    by apply elem_of_nil in Hin.
Qed.

Lemma validation_failure_stops_submission_witness :
  ∃ err,
    Yup.validate Examples.rEmail schema (to_object Examples.blank)
      {| Yup.abortEarly := false |} = inr err
    ∧ existsb is_api_call
        (calls (handleSubmit Examples.rEmail Examples.env_ios Examples.blank)
           Samples.w_stale) = false
    ∧ session_user
        (run (handleSubmit Examples.rEmail Examples.env_ios Examples.blank)
           Samples.w_stale) = Examples.u0.
Proof.
  destruct (Yup.validate Examples.rEmail schema (to_object Examples.blank)
              {| Yup.abortEarly := false |}) as [v|err] eqn:Hv;
    [vm_compute in Hv; discriminate|].
  exists err. split; [reflexivity|].
  destruct (validation_failure_stops_submission Examples.rEmail
              Examples.env_ios Samples.w_stale Examples.blank err Hv)
    as (_ & _ & Huser & Hapi & _).
  split; [exact Hapi|exact Huser].
Defined.

(** X4. A submission never ends in an uncaught exception, and it always
    replaces what the form showed before: with the form mounted, the errors
    it shows afterwards are empty exactly when the schema accepted the
    data, whatever errors were on display when the submission began. *)
Theorem handleSubmit_settles rEmail env w data :
  fst (handleSubmit rEmail env data w) = inl ()
  ∧ (formRef_current (run (handleSubmit rEmail env data) w) = None
     ↔ formRef_current w = None)
  ∧ ∀ errors,
      formRef_current (run (handleSubmit rEmail env data) w) = Some errors →
      (errors = ∅
       ↔ Yup.validate rEmail schema (to_object data)
           {| Yup.abortEarly := false |} = inl (to_object data)).
Proof.
  unfold run.
  destruct (handleSubmit_cases rEmail env data w)
    as [(err & Hv & ->)|[(user & Hv & _ & ->)|(err & Hv & _ & ->)]];
    cbn [fst snd formRef_current]; (split; [done|]); split;
    try (by destruct (formRef_current w));
    intros errors; destruct (formRef_current w); cbn; intros [= <-];
    try done.
  split; [|by rewrite Hv].
  intros Hempty. by apply getValidationErrors_nonempty in Hv.
Qed.

(** X5. Only validated data reaches the API: a put made by the handler
    goes to [/profile] and carries the form's name and email, both non-empty
    and the email well-formed; and if the body carries a password, it carries
    the same value as confirmation, not empty, together with a non-empty
    current password. *)
Theorem only_valid_data_is_sent rEmail env w data url body :
  EvApiPut url body ∈ calls (handleSubmit rEmail env data) w →
  url = "/profile"
  ∧ body !! "name" = Some (name data) ∧ name data ≠ ""
  ∧ body !! "email" = Some (email data) ∧ email data ≠ ""
  ∧ rEmail (email data) = true
  ∧ ∀ p, body !! "password" = Some p →
         p ≠ ""
         ∧ body !! "password_confirmation" = Some p
         ∧ body !! "old_password" = Some (old_password data)
         ∧ old_password data ≠ "".
Proof.
  intros Hin.
  assert (Yup.validate rEmail schema (to_object data)
            {| Yup.abortEarly := false |} = inl (to_object data)
          ∧ url = "/profile" ∧ body = formData data) as (Hv & -> & ->).
  { destruct (handleSubmit_cases rEmail env data w)
      as [(err & Hv & Hrun)|[(user & Hv & _ & Hrun)|(err & Hv & _ & Hrun)]];
      (erewrite submit_calls in Hin; [|exact Hrun|reflexivity]);
      unfold setErrors_call in Hin; destruct (formRef_current w);
      cbn in Hin;
      repeat (apply elem_of_cons in Hin as [Hin|Hin];
              [try discriminate; injection Hin as -> ->; done|]);
      by apply elem_of_nil in Hin. }
  apply validate_inl_fields in Hv as (Hname & Hemail & Hre & Heq & Hpw).
  split; [done|].
  destruct (decide (old_password data = "")) as [Hold|Hold].
  - rewrite formData_unchanged_password by done.
    do 5 (split; [done|]). intros p Hp. by vm_compute in Hp.
  - rewrite formData_new_password by done.
    do 5 (split; [done|]). intros p Hp.
    assert (p = password data) as ->.
    { change (Some (password data) = Some p) in Hp. by injection Hp. }
    split; [by apply Hpw|]. split; [by rewrite Heq|]. done.
Qed.

Lemma only_valid_data_is_sent_witness :
  EvApiPut "/profile" (formData Examples.ana_new_password)
    ∈ calls (handleSubmit Examples.rEmail Examples.env_ios
               Examples.ana_new_password) Examples.w0
  ∧ formData Examples.ana_new_password !! "name" = Some "Ana"
  ∧ ∀ p, formData Examples.ana_new_password !! "password" = Some p → p ≠ "".
Proof.
  assert (EvApiPut "/profile" (formData Examples.ana_new_password)
            ∈ calls (handleSubmit Examples.rEmail Examples.env_ios
                       Examples.ana_new_password) Examples.w0) as Hin.
  { assert (calls (handleSubmit Examples.rEmail Examples.env_ios
                     Examples.ana_new_password) Examples.w0
            = [ EvSetErrors ∅;
                EvApiPut "/profile" (formData Examples.ana_new_password);
                EvUpdateUser Examples.u1;
                EvAlert "Perfil atualizado!"
                  (Some "Suas informações do perfil foram atualizadas com sucesso!");
                EvGoBack ]) as -> by (vm_compute; reflexivity).
    right. left. }
  destruct (only_valid_data_is_sent _ _ _ _ _ _ Hin)
    as (_ & Hname & _ & _ & _ & _ & Hpw).
  split; [exact Hin|]. split; [exact Hname|].
  intros p Hp. by destruct (Hpw p Hp).
Defined.

(** X6. A new password typed without the current one is accepted and then
    left out: with valid name and email, an empty current password and a
    confirmation equal to the password, the schema accepts the form whatever
    the password is, and the body of the put has no password field. *)
Theorem new_password_without_current_is_dropped rEmail env w data :
  name data ≠ "" →
  email data ≠ "" →
  rEmail (email data) = true →
  old_password data = "" →
  password_confirmation data = password data →
  Yup.validate rEmail schema (to_object data) {| Yup.abortEarly := false |}
    = inl (to_object data)
  ∧ List.filter is_api_call (calls (handleSubmit rEmail env data) w)
    = [EvApiPut "/profile" {[ "name" := name data; "email" := email data ]}]
  ∧ formData data !! "password" = None
  ∧ formData data !! "password_confirmation" = None.
Proof.
  intros Hname Hemail Hre Hold Heq.
  assert (Yup.validate rEmail schema (to_object data)
            {| Yup.abortEarly := false |} = inl (to_object data)) as Hv.
  { by apply fields_validate. }
  split; [done|].
  rewrite (formData_unchanged_password data Hold). split; [|done].
  rewrite <- (formData_unchanged_password data Hold).
  destruct (handleSubmit_cases rEmail env data w)
    as [(err & Hv' & _)|[(user & _ & _ & Hrun)|(err & _ & _ & Hrun)]];
    [congruence| |];
    (erewrite submit_calls; [|exact Hrun|reflexivity]);
    unfold setErrors_call; by destruct (formRef_current w).
Qed.

Lemma new_password_without_current_is_dropped_witness :
  password Samples.ana_forgot_current = "abcdef"
  ∧ old_password Samples.ana_forgot_current = ""
  ∧ Yup.validate Examples.rEmail schema (to_object Samples.ana_forgot_current)
      {| Yup.abortEarly := false |} = inl (to_object Samples.ana_forgot_current)
  ∧ formData Samples.ana_forgot_current !! "password" = None.
Proof.
  assert (name Samples.ana_forgot_current ≠ "") as Hname
    by (vm_compute; discriminate).
  assert (email Samples.ana_forgot_current ≠ "") as Hemail
    by (vm_compute; discriminate).
  assert (Examples.rEmail (email Samples.ana_forgot_current) = true) as Hre
    by reflexivity.
  assert (old_password Samples.ana_forgot_current = "") as Hold by reflexivity.
  assert (password_confirmation Samples.ana_forgot_current
          = password Samples.ana_forgot_current) as Heq by reflexivity.
  destruct (new_password_without_current_is_dropped Examples.rEmail
              Examples.env_ios Examples.w0 Samples.ana_forgot_current
              Hname Hemail Hre Hold Heq) as (Hv & _ & Hpw & _).
  split; [reflexivity|]. split; [exact Hold|]. split; [exact Hv|exact Hpw].
Defined.

(** X7. A submission keeps to its own collaborators: it makes at most one
    call to the API, always a put, shows at most one alert, and never
    touches the permission provider or the image picker. *)
Theorem handleSubmit_footprint rEmail env w data :
  (length (List.filter is_api_call (calls (handleSubmit rEmail env data) w))
   ≤ 1)%nat
  ∧ (length (List.filter is_alert (calls (handleSubmit rEmail env data) w))
     ≤ 1)%nat
  ∧ (∀ url body, EvApiPatch url body ∉ calls (handleSubmit rEmail env data) w)
  ∧ existsb is_permission_call (calls (handleSubmit rEmail env data) w) = false
  ∧ existsb is_showImagePicker (calls (handleSubmit rEmail env data) w) = false
  ∧ (existsb is_alert (calls (handleSubmit rEmail env data) w)
     = existsb is_api_call (calls (handleSubmit rEmail env data) w)).
Proof.
  destruct (handleSubmit_cases rEmail env data w)
    as [(err & _ & Hrun)|[(user & _ & _ & Hrun)|(err & _ & _ & Hrun)]];
    (erewrite submit_calls; [|exact Hrun|reflexivity]);
    unfold setErrors_call; destruct (formRef_current w); cbn;
    repeat split; try lia; intros url body Hin;
    repeat (apply elem_of_cons in Hin as [Hin|Hin]; [discriminate|]);
    by apply elem_of_nil in Hin.
Qed.

(** ** The permission helpers *)

(** X8. Each of the three helpers asks only when it has to: if the check
    says the permission is held it answers [true] without a request;
    otherwise it makes exactly one request and answers [true] only for
    [GRANTED], so that [DENIED] and [NEVER_ASK_AGAIN] both count as a
    refusal. *)
Theorem permission_helpers_ask_once env w p :
  (PermissionsAndroid_check env p = true →
   permission_helper env (E := ApiError) p w
     = (inl true, log w [EvPermCheck p]))
  ∧ (PermissionsAndroid_check env p = false →
     permission_helper env (E := ApiError) p w =
       (inl (bool_decide (PermissionsAndroid_request env p = GRANTED)),
        log w [EvPermCheck p; EvPermRequest p]))
  ∧ (PermissionsAndroid_check env p = false →
     PermissionsAndroid_request env p ≠ GRANTED →
     fst (permission_helper env (E := ApiError) p w) = inl false).
Proof.
  destruct p; unfold permission_helper;
    [rewrite requestCameraPermissions_run
    |rewrite requestReadStoragePermissions_run
    |rewrite requestWriteStoragePermissions_run];
    unfold permission_granted, permission_calls;
    (split; [|split]); try (intros -> Hne); try intros ->; cbn;
    try done; by rewrite bool_decide_eq_false_2.
Qed.

Lemma permission_helpers_ask_once_witness :
  PermissionsAndroid_check Samples.env_never_ask_again CAMERA = false
  ∧ PermissionsAndroid_request Samples.env_never_ask_again CAMERA ≠ GRANTED
  ∧ fst (requestCameraPermissions Samples.env_never_ask_again (E := ApiError)
           Examples.w0) = inl false.
Proof.
  assert (PermissionsAndroid_check Samples.env_never_ask_again CAMERA = false)
    as Hc by reflexivity.
  assert (PermissionsAndroid_request Samples.env_never_ask_again CAMERA
          ≠ GRANTED) as Hr by (vm_compute; discriminate).
  split; [exact Hc|]. split; [exact Hr|].
  apply (permission_helpers_ask_once Samples.env_never_ask_again Examples.w0
           CAMERA); assumption.
Defined.

(** ** The avatar update, run by run *)

(** Every run of the handler: either the alert of a refusal after the
    calls of the three helpers, or the picker followed by what its callback
    does. *)
Lemma handleUpdateAvatar_runs env w :
  (Platform_OS env = android
   ∧ permission_granted env CAMERA
     && permission_granted env READ_EXTERNAL_STORAGE
     && permission_granted env WRITE_EXTERNAL_STORAGE = false
   ∧ ∃ message,
       handleUpdateAvatar env w =
         (inl (),
          log w (all_permission_calls env
                 ++ [EvAlert "Permissão necessária" (Some message)])))
  ∨ (∃ pre l user,
       ((Platform_OS env ≠ android ∧ pre = [])
        ∨ (Platform_OS env = android
           ∧ permission_granted env CAMERA
             && permission_granted env READ_EXTERNAL_STORAGE
             && permission_granted env WRITE_EXTERNAL_STORAGE = true
           ∧ pre = all_permission_calls env))
       ∧ handleUpdateAvatar env w =
           (inl (),
            {| session_user := user;
               formRef_current := formRef_current w;
               trace := trace w ++ pre ++ EvShowImagePicker options :: l |})
       ∧ ((ImagePicker.didCancel (ImagePicker_response env) = true
           ∧ l = [] ∧ user = session_user w)
          ∨ (ImagePicker.didCancel (ImagePicker_response env) = false
             ∧ JS.truthy (ImagePicker.error (ImagePicker_response env)) = true
             ∧ l = [EvAlert "Erro ao atualizar seu avatar." None]
             ∧ user = session_user w)
          ∨ (ImagePicker.didCancel (ImagePicker_response env) = false
             ∧ JS.truthy (ImagePicker.error (ImagePicker_response env)) = false
             ∧ api_patch env "/users/avatar"
                 (avatarData (ImagePicker_response env)) = resolved user
             ∧ l = [ EvApiPatch "/users/avatar"
                       (avatarData (ImagePicker_response env));
                     EvUpdateUser user ])
          ∨ (∃ err,
               ImagePicker.didCancel (ImagePicker_response env) = false
               ∧ JS.truthy (ImagePicker.error (ImagePicker_response env)) = false
               ∧ api_patch env "/users/avatar"
                   (avatarData (ImagePicker_response env)) = rejected err
               ∧ l = [ EvApiPatch "/users/avatar"
                         (avatarData (ImagePicker_response env));
                       EvAlert "Erro ao atualizar o seu avatar"
                         (Some (JSON_stringify err)) ]
               ∧ user = session_user w))).
Proof.
  destruct (handleUpdateAvatar_cases env w)
    as [(Hos & Hden & message & Hrun & _)|(pre & Hpre & Hrun)].
  { left. split; [done|]. split; [done|]. by exists message. }
  right.
  destruct (avatarCallback_cases env (ImagePicker_response env)
              (log w (pre ++ [EvShowImagePicker options])))
    as (l & user & Hcb & Hl).
  exists pre, l, user. split; [done|]. split.
  - rewrite Hrun, Hcb. cbn [log trace session_user formRef_current].
    by rewrite <- !app_assoc.
  - exact Hl.
Qed.

(** X9. On Android every run begins with the calls of the three helpers,
    and the picker is opened exactly when all three permissions end up
    granted; when it is, it is opened right after those calls, before any
    alert. *)
Theorem picker_opens_iff_permissions_granted env w :
  Platform_OS env = android →
  (∃ rest, calls (handleUpdateAvatar env) w = all_permission_calls env ++ rest
           ∧ (permission_granted env CAMERA
              && permission_granted env READ_EXTERNAL_STORAGE
              && permission_granted env WRITE_EXTERNAL_STORAGE = true →
              ∃ rest', rest = EvShowImagePicker options :: rest'))
  ∧ existsb is_showImagePicker (calls (handleUpdateAvatar env) w)
    = permission_granted env CAMERA
      && permission_granted env READ_EXTERNAL_STORAGE
      && permission_granted env WRITE_EXTERNAL_STORAGE.
Proof.
  intros Hos.
  destruct (handleUpdateAvatar_runs env w)
    as [(_ & Hden & message & Hrun)
       |(pre & l & user & [[Hne _]|(_ & Hok & ->)] & Hrun & Hl)]; [|done|].
  - erewrite run_calls; [|exact Hrun|reflexivity]. split.
    + eexists. split; [reflexivity|]. congruence.
    + by rewrite existsb_app, all_permission_calls_no_picker, Hden.
  - erewrite run_calls; [|exact Hrun|reflexivity]. split.
    + eexists. split; [reflexivity|]. intros _. by eexists.
    + rewrite existsb_app, Hok. cbn. by rewrite orb_true_r.
Qed.

Lemma picker_opens_iff_permissions_granted_witness :
  Platform_OS Samples.env_android = android
  ∧ existsb is_showImagePicker
      (calls (handleUpdateAvatar Samples.env_android) Examples.w0) = true
  ∧ Platform_OS Samples.env_never_ask_again = android
  ∧ existsb is_showImagePicker
      (calls (handleUpdateAvatar Samples.env_never_ask_again) Examples.w0)
    = false.
Proof.
  assert (Platform_OS Samples.env_android = android) as Hos1 by reflexivity.
  assert (Platform_OS Samples.env_never_ask_again = android) as Hos2
    by reflexivity.
  destruct (picker_opens_iff_permissions_granted Samples.env_android
              Examples.w0 Hos1) as [_ H1].
  destruct (picker_opens_iff_permissions_granted Samples.env_never_ask_again
              Examples.w0 Hos2) as [_ H2].
  split; [exact Hos1|]. split; [exact H1|]. split; [exact Hos2|exact H2].
Defined.

(** X10. A successful upload: when nothing stands in the way (no Android,
    or all permissions granted; a picture picked; the patch accepted), the
    handler sends one multipart body with the single part [avatar] made of
    the picked file's type, name and uri to [/users/avatar], makes the
    answer the session user, and shows no alert. *)
Theorem avatar_upload_replaces_user env w user :
  Platform_OS env ≠ android
  ∨ permission_granted env CAMERA
    && permission_granted env READ_EXTERNAL_STORAGE
    && permission_granted env WRITE_EXTERNAL_STORAGE = true →
  ImagePicker.didCancel (ImagePicker_response env) = false →
  JS.truthy (ImagePicker.error (ImagePicker_response env)) = false →
  api_patch env "/users/avatar" (avatarData (ImagePicker_response env))
    = resolved user →
  session_user (run (handleUpdateAvatar env) w) = user
  ∧ calls (handleUpdateAvatar env) w =
      (if bool_decide (Platform_OS env = android)
       then all_permission_calls env else [])
      ++ [ EvShowImagePicker options;
           EvApiPatch "/users/avatar"
             [ ("avatar",
                {| FormData.type := ImagePicker.type (ImagePicker_response env);
                   FormData.name :=
                     ImagePicker.fileName (ImagePicker_response env);
                   FormData.uri := ImagePicker.uri (ImagePicker_response env) |}) ];
           EvUpdateUser user ]
  ∧ existsb is_alert (calls (handleUpdateAvatar env) w) = false.
Proof.
  intros Hperm Hc He Hp.
  destruct (handleUpdateAvatar_runs env w)
    as [(Hos & Hden & _)|(pre & l & user' & Hpre & Hrun & Hl)].
  { destruct Hperm; congruence. }
  assert (l = [ EvApiPatch "/users/avatar"
                  (avatarData (ImagePicker_response env));
                EvUpdateUser user ] ∧ user' = user) as [-> ->].
  { destruct Hl as [(? & _)|[(_ & ? & _)|[(_ & _ & Hp' & ->)
                   |(err & _ & _ & Hp' & _)]]]; try congruence.
    rewrite Hp in Hp'. by injection Hp' as ->. }
  assert (pre = if bool_decide (Platform_OS env = android)
                then all_permission_calls env else []) as Hpre_eq.
  { destruct Hpre as [[Hne ->]|(Hos & _ & ->)].
    - by rewrite bool_decide_eq_false_2.
    - by rewrite bool_decide_eq_true_2. }
  erewrite run_calls; [|exact Hrun|reflexivity]. unfold run. rewrite Hrun.
  cbn [snd session_user]. split; [done|]. rewrite <- Hpre_eq. split; [done|].
  rewrite existsb_app.
  destruct Hpre as [[_ ->]|(_ & _ & ->)]; [done|].
  by rewrite all_permission_calls_no_alert.
Qed.

Lemma avatar_upload_replaces_user_witness :
  permission_granted Samples.env_android CAMERA
  && permission_granted Samples.env_android READ_EXTERNAL_STORAGE
  && permission_granted Samples.env_android WRITE_EXTERNAL_STORAGE = true
  ∧ session_user Examples.w0 = Examples.u0
  ∧ session_user (run (handleUpdateAvatar Samples.env_android) Examples.w0)
      = Examples.u1.
Proof.
  assert (permission_granted Samples.env_android CAMERA
          && permission_granted Samples.env_android READ_EXTERNAL_STORAGE
          && permission_granted Samples.env_android WRITE_EXTERNAL_STORAGE
          = true) as Hok by reflexivity.
  split; [exact Hok|]. split; [reflexivity|].
  apply (avatar_upload_replaces_user Samples.env_android Examples.w0
           Examples.u1 (or_intror Hok)); reflexivity.
Defined.

(** X11. When the picker reports an error the handler shows the alert
    [Erro ao atualizar seu avatar.], without a message, and stops: no call
    to the API, no [updateUser], the session user kept. *)
Theorem picker_error_alerts env w :
  existsb is_showImagePicker (calls (handleUpdateAvatar env) w) = true →
  ImagePicker.didCancel (ImagePicker_response env) = false →
  JS.truthy (ImagePicker.error (ImagePicker_response env)) = true →
  List.filter is_alert (calls (handleUpdateAvatar env) w)
    = [EvAlert "Erro ao atualizar seu avatar." None]
  ∧ last (calls (handleUpdateAvatar env) w)
    = Some (EvAlert "Erro ao atualizar seu avatar." None)
  ∧ existsb is_api_call (calls (handleUpdateAvatar env) w) = false
  ∧ existsb is_updateUser (calls (handleUpdateAvatar env) w) = false
  ∧ session_user (run (handleUpdateAvatar env) w) = session_user w.
Proof.
  intros Hopen Hc He.
  destruct (handleUpdateAvatar_runs env w)
    as [(_ & _ & message & Hrun)|(pre & l & user & Hpre & Hrun & Hl)].
  { erewrite run_calls in Hopen; [|exact Hrun|reflexivity].
    by rewrite existsb_app, all_permission_calls_no_picker in Hopen. }
  assert (l = [EvAlert "Erro ao atualizar seu avatar." None]
          ∧ user = session_user w) as [-> ->].
  { destruct Hl as [(? & _)|[(_ & _ & -> & ->)|[(_ & ? & _)
                   |(err & _ & ? & _)]]]; try congruence. done. }
  erewrite run_calls; [|exact Hrun|reflexivity]. unfold run. rewrite Hrun.
  cbn [snd session_user].
  rewrite List.filter_app, !existsb_app.
  change (pre ++ [EvShowImagePicker options;
                  EvAlert "Erro ao atualizar seu avatar." None])
    with (pre ++ [EvShowImagePicker options]
              ++ [EvAlert "Erro ao atualizar seu avatar." None]).
  rewrite !app_assoc, last_snoc.
  destruct Hpre as [[_ ->]|(_ & _ & ->)]; [done|].
  rewrite all_permission_calls_no_api_call, all_permission_calls_no_updateUser.
  repeat split.
  unfold all_permission_calls, permission_calls.
  by repeat destruct (PermissionsAndroid_check env _).
Qed.

Lemma picker_error_alerts_witness :
  existsb is_showImagePicker
    (calls (handleUpdateAvatar Samples.env_picker_error) Examples.w0) = true
  ∧ JS.truthy (ImagePicker.error (ImagePicker_response Samples.env_picker_error))
    = true
  ∧ calls (handleUpdateAvatar Samples.env_picker_error) Examples.w0
    = [ EvShowImagePicker options;
        EvAlert "Erro ao atualizar seu avatar." None ]
  ∧ existsb is_api_call
      (calls (handleUpdateAvatar Samples.env_picker_error) Examples.w0) = false.
Proof.
  assert (existsb is_showImagePicker
            (calls (handleUpdateAvatar Samples.env_picker_error) Examples.w0)
          = true) as Hopen by (vm_compute; reflexivity).
  assert (JS.truthy
            (ImagePicker.error (ImagePicker_response Samples.env_picker_error))
          = true) as He by reflexivity.
  destruct (picker_error_alerts Samples.env_picker_error Examples.w0
              Hopen eq_refl He) as (_ & _ & Hapi & _).
  split; [exact Hopen|]. split; [exact He|].
  split; [vm_compute; reflexivity|exact Hapi].
Defined.

(** X12. When the patch is rejected the handler shows one alert,
    [Erro ao atualizar o seu avatar], whose message is the rejection as
    [JSON.stringify] renders it; the patch is its only call to the API, it
    is not retried, and the session user is kept. *)
Theorem patch_rejection_alerts env w err :
  Platform_OS env ≠ android
  ∨ permission_granted env CAMERA
    && permission_granted env READ_EXTERNAL_STORAGE
    && permission_granted env WRITE_EXTERNAL_STORAGE = true →
  ImagePicker.didCancel (ImagePicker_response env) = false →
  JS.truthy (ImagePicker.error (ImagePicker_response env)) = false →
  api_patch env "/users/avatar" (avatarData (ImagePicker_response env))
    = rejected err →
  List.filter is_alert (calls (handleUpdateAvatar env) w)
    = [EvAlert "Erro ao atualizar o seu avatar" (Some (JSON_stringify err))]
  ∧ List.filter is_api_call (calls (handleUpdateAvatar env) w)
    = [EvApiPatch "/users/avatar" (avatarData (ImagePicker_response env))]
  ∧ last (calls (handleUpdateAvatar env) w)
    = Some (EvAlert "Erro ao atualizar o seu avatar"
              (Some (JSON_stringify err)))
  ∧ session_user (run (handleUpdateAvatar env) w) = session_user w.
Proof.
  intros Hperm Hc He Hp.
  destruct (handleUpdateAvatar_runs env w)
    as [(Hos & Hden & _)|(pre & l & user & Hpre & Hrun & Hl)].
  { destruct Hperm; congruence. }
  assert (l = [ EvApiPatch "/users/avatar"
                  (avatarData (ImagePicker_response env));
                EvAlert "Erro ao atualizar o seu avatar"
                  (Some (JSON_stringify err)) ]
          ∧ user = session_user w) as [-> ->].
  { destruct Hl as [(? & _)|[(_ & ? & _)|[(_ & _ & Hp' & _)
                   |(err' & _ & _ & Hp' & -> & ->)]]]; try congruence.
    rewrite Hp in Hp'. by injection Hp' as ->. }
  erewrite run_calls; [|exact Hrun|reflexivity]. unfold run. rewrite Hrun.
  cbn [snd session_user]. rewrite !List.filter_app.
  assert (List.filter is_alert pre = [] ∧ List.filter is_api_call pre = [])
    as [-> ->].
  { destruct Hpre as [[_ ->]|(_ & _ & ->)]; [done|].
    unfold all_permission_calls, permission_calls.
    by repeat destruct (PermissionsAndroid_check env _). }
  repeat split.
  change (pre ++ [EvShowImagePicker options;
                  EvApiPatch "/users/avatar"
                    (avatarData (ImagePicker_response env));
                  EvAlert "Erro ao atualizar o seu avatar"
                    (Some (JSON_stringify err))])
    with (pre ++ [EvShowImagePicker options;
                  EvApiPatch "/users/avatar"
                    (avatarData (ImagePicker_response env))]
              ++ [EvAlert "Erro ao atualizar o seu avatar"
                    (Some (JSON_stringify err))]).
  by rewrite app_assoc, last_snoc.
Qed.

Lemma patch_rejection_alerts_witness :
  Platform_OS Examples.env_offline ≠ android
  ∧ api_patch Examples.env_offline "/users/avatar"
      (avatarData (ImagePicker_response Examples.env_offline))
    = rejected {| JSON_stringify := "{}" |}
  ∧ List.filter is_alert (calls (handleUpdateAvatar Examples.env_offline)
                            Examples.w0)
    = [EvAlert "Erro ao atualizar o seu avatar" (Some "{}")].
Proof.
  assert (Platform_OS Examples.env_offline ≠ android) as Hos
    by (vm_compute; discriminate).
  assert (api_patch Examples.env_offline "/users/avatar"
            (avatarData (ImagePicker_response Examples.env_offline))
          = rejected {| JSON_stringify := "{}" |}) as Hp by reflexivity.
  split; [exact Hos|]. split; [exact Hp|].
  apply (patch_rejection_alerts Examples.env_offline Examples.w0
           {| JSON_stringify := "{}" |} (or_introl Hos) eq_refl eq_refl Hp).
Defined.

(** X13. Every run of the avatar handler keeps to its own collaborators:
    it leaves the form as it was, never navigates and never makes a put; it
    opens the picker at most once, makes at most one call to the API and
    shows at most one alert, and it never both shows an alert and calls
    [updateUser]. *)
Theorem handleUpdateAvatar_footprint env w :
  formRef_current (run (handleUpdateAvatar env) w) = formRef_current w
  ∧ (∀ errors, EvSetErrors errors ∉ calls (handleUpdateAvatar env) w)
  ∧ (EvGoBack ∉ calls (handleUpdateAvatar env) w)
  ∧ (∀ url body, EvApiPut url body ∉ calls (handleUpdateAvatar env) w)
  ∧ (length (List.filter is_showImagePicker (calls (handleUpdateAvatar env) w))
     ≤ 1)%nat
  ∧ (length (List.filter is_api_call (calls (handleUpdateAvatar env) w))
     ≤ 1)%nat
  ∧ (length (List.filter is_alert (calls (handleUpdateAvatar env) w))
     ≤ 1)%nat
  ∧ existsb is_alert (calls (handleUpdateAvatar env) w)
    && existsb is_updateUser (calls (handleUpdateAvatar env) w) = false.
Proof.
  assert (∀ pre, pre = [] ∨ pre = all_permission_calls env →
            Forall (λ ev, is_permission_call ev = true) pre) as Hperm.
  { intros pre [->| ->]; [constructor|].
    unfold all_permission_calls, permission_calls.
    repeat destruct (PermissionsAndroid_check env _);
      by repeat constructor. }
  assert (∀ pre ev, Forall (λ ev, is_permission_call ev = true) pre →
            is_permission_call ev = false → ev ∉ pre) as Hnot.
  { intros pre ev Hall Hev Hin.
    rewrite Forall_forall in Hall. specialize (Hall _ Hin). congruence. }
  assert (∀ pre (f : Event → bool),
            Forall (λ ev, is_permission_call ev = true) pre →
            (∀ ev, is_permission_call ev = true → f ev = false) →
            List.filter f pre = [] ∧ existsb f pre = false) as Hfilter.
  { intros pre f Hall Hf. induction Hall as [|ev pre Hev _ [IH1 IH2]]; [done|].
    cbn. by rewrite (Hf ev Hev), IH1, IH2. }
  destruct (handleUpdateAvatar_runs env w)
    as [(_ & _ & message & Hrun)|(pre & l & user & Hpre & Hrun & Hl)].
  - erewrite run_calls; [|exact Hrun|reflexivity]. unfold run. rewrite Hrun.
    cbn [fst snd log formRef_current].
    pose proof (Hperm (all_permission_calls env) (or_intror eq_refl)) as Hall.
    rewrite !List.filter_app, !existsb_app, !length_app.
    destruct (Hfilter _ is_showImagePicker Hall) as [-> _]; [by intros []|].
    destruct (Hfilter _ is_api_call Hall) as [-> _]; [by intros []|].
    destruct (Hfilter _ is_alert Hall) as [-> _]; [by intros []|].
    destruct (Hfilter _ is_updateUser Hall) as [_ ->]; [by intros []|].
    cbn -[all_permission_calls]. rewrite andb_false_r.
    repeat split; try lia; unfold not; intros;
      match goal with H : _ ∈ _ |- _ => revert H end; intros Hin;
      (apply elem_of_app in Hin as [Hin|Hin];
       [by eapply Hnot; [exact Hall| |exact Hin]|]);
      repeat (apply elem_of_cons in Hin as [Hin|Hin]; [discriminate|]);
      by apply elem_of_nil in Hin.
  - erewrite run_calls; [|exact Hrun|reflexivity]. unfold run. rewrite Hrun.
    cbn [fst snd formRef_current].
    assert (Forall (λ ev, is_permission_call ev = true) pre) as Hall.
    { apply Hperm. destruct Hpre as [[_ ->]|(_ & _ & ->)]; auto. }
    rewrite !List.filter_app, !existsb_app, !length_app.
    destruct (Hfilter _ is_showImagePicker Hall) as [-> _]; [by intros []|].
    destruct (Hfilter _ is_api_call Hall) as [-> _]; [by intros []|].
    destruct (Hfilter _ is_alert Hall) as [-> ->]; [by intros []|].
    destruct (Hfilter _ is_updateUser Hall) as [_ ->]; [by intros []|].
    destruct Hl as [(_ & -> & _)|[(_ & _ & -> & _)|[(_ & _ & _ & ->)
                   |(err & _ & _ & _ & -> & _)]]]; cbn;
      repeat split; try lia; unfold not; intros;
      match goal with H : _ ∈ _ |- _ => revert H end; intros Hin;
      (apply elem_of_app in Hin as [Hin|Hin];
       [by eapply Hnot; [exact Hall| |exact Hin]|]);
      repeat (apply elem_of_cons in Hin as [Hin|Hin]; [discriminate|]);
      by apply elem_of_nil in Hin.
Qed.

(** X14. With a [null] form reference a rejected validation goes
    unreported: the handler makes no call at all and leaves the world as it
    found it. *)
Theorem unmounted_form_drops_errors rEmail env w data err :
  formRef_current w = None →
  Yup.validate rEmail schema (to_object data) {| Yup.abortEarly := false |}
    = inr err →
  handleSubmit rEmail env data w = (inl (), w)
  ∧ calls (handleSubmit rEmail env data) w = [].
Proof.
  intros Hnull Hv.
  pose proof (handleSubmit_invalid rEmail env data err w Hv) as Hrun.
  unfold setErrors_call in Hrun. rewrite Hnull in Hrun. cbn in Hrun.
  rewrite app_nil_r in Hrun.
  assert (handleSubmit rEmail env data w = (inl (), w)) as Hsame.
  { rewrite Hrun. destruct w. cbn in *. by subst. }
  split; [done|].
  apply (run_calls _ w w (inl ())); [done|by rewrite app_nil_r].
Qed.

Lemma unmounted_form_drops_errors_witness :
  ∃ err,
    Yup.validate Examples.rEmail schema (to_object Examples.blank)
      {| Yup.abortEarly := false |} = inr err
    ∧ calls (handleSubmit Examples.rEmail Examples.env_ios Examples.blank)
        {| session_user := Examples.u0; formRef_current := None;
           trace := [EvGoBack] |} = [].
Proof.
  destruct (Yup.validate Examples.rEmail schema (to_object Examples.blank)
              {| Yup.abortEarly := false |}) as [v|err] eqn:Hv;
    [vm_compute in Hv; discriminate|].
  exists err. split; [reflexivity|].
  apply (unmounted_form_drops_errors Examples.rEmail Examples.env_ios
           {| session_user := Examples.u0; formRef_current := None;
              trace := [EvGoBack] |} Examples.blank err eq_refl Hv).
Defined.

(** ** The return key *)

(** X15. The return key leads through the form without a dead end or a
    loop: from any input it visits exactly the inputs below it, in the order
    of the screen, and the last one, the confirmation, submits the form. *)
Theorem return_key_reaches_submit i :
  return_key_walk (5 - position i) i =
    Some (drop (position i)
            [input_name; input_email; input_old_password; input_password;
             input_password_confirmation])
  ∧ (∀ j, onSubmitEditing j = submitForm ↔ j = input_password_confirmation)
  ∧ (∀ j r, onSubmitEditing j = focus r →
            ∃ k, ref_of k = Some r ∧ position k = S (position j)).
Proof.
  split; [by destruct i|]. split.
  - intros j. by destruct j.
  - intros j r Hr. destruct j; cbn in Hr; try discriminate;
      injection Hr as <-;
      [exists input_email|exists input_old_password|exists input_password
      |exists input_password_confirmation]; by split.
Qed.
